(** * ALICE data explorer: reconciliation and metric derivation

    A shallow embedding of the pandas pipeline of the repository:

    - [alice_data_consolidator.py]  (module [Consolidator]): derived
      percentages of a county sheet and the summary means;
    - [alice_tiger_integration.py]  (module [Tiger]): FIPS clean-up, the
      left merge of the county boundaries with the ALICE rows, the secondary
      join by state and county name, the summary statistics;
    - [alice_census_integration.py] (module [Census]): the derived
      population counts and the seeded mock demographics.

    Conventions of the embedding.

    - A pandas float64 cell is a [float64]: NaN (the null of pandas), the
      two infinities, or a finite value carried as an exact rational.  The
      special values follow IEEE 754 as numpy applies it; finite arithmetic
      is exact (binary rounding error and signed zeros are not modelled).
      This layer carries the statements on nulls, infinities and
      ranges.
    - Where the digits themselves matter, in the rounding of the derived
      metrics, the same source expressions are also carried on binary64
      bit for bit (module [Binary64], on the IEEE 754 operations of the
      standard library's [SpecFloat]).
    - A text cell is an [option string] ([None] is NaN); a character is an
      [ascii], so text outside ASCII is not modelled.
    - A DataFrame is the list of its rows, in index order. *)

From Stdlib Require Import ZArith QArith Qround Qabs Lqa.
From Stdlib Require SpecFloat.
From Stdlib Require Import String Ascii List Lia Bool.
From stdpp Require Import base option list gmap strings.
Import ListNotations.

Open Scope string_scope.

(* ================================================================== *)
(** * Part I: the program                                              *)
(* ================================================================== *)

(** ** Python strings *)

Module Str.

(** [s.split(sep)] for a one-character separator: never empty. *)
Fixpoint split (sep : ascii) (s : string) : list string :=
  match s with
  | EmptyString => [EmptyString]
  | String c r =>
      if Ascii.eqb c sep then EmptyString :: split sep r
      else match split sep r with
           | [] => [String c EmptyString]
           | w :: ws => String c w :: ws
           end
  end.

(** [.str[0]] on the list [split] returns. *)
Definition first (ws : list string) : string :=
  match ws with
  | [] => EmptyString
  | w :: _ => w
  end.

Fixpoint zeros (n : nat) : string :=
  match n with
  | O => EmptyString
  | S k => String "0" (zeros k)
  end.

Definition is_sign (c : ascii) : bool :=
  Ascii.eqb c "+" || Ascii.eqb c "-".

(** [s.zfill(width)]: zeros on the left, after a leading sign. *)
Definition zfill (width : nat) (s : string) : string :=
  let len := String.length s in
  if (width <=? len)%nat then s
  else
    let fill := (width - len)%nat in
    match s with
    | String c r =>
        if is_sign c then String c (zeros fill ++ r) else zeros fill ++ s
    | EmptyString => zeros fill
    end.

Definition lower_char (c : ascii) : ascii :=
  let n := nat_of_ascii c in
  if ((65 <=? n) && (n <=? 90))%nat then ascii_of_nat (n + 32) else c.

(** [s.lower()] on ASCII text. *)
Fixpoint lower (s : string) : string :=
  match s with
  | EmptyString => EmptyString
  | String c r => String (lower_char c) (lower r)
  end.

Definition is_digit (c : ascii) : bool :=
  let n := nat_of_ascii c in ((48 <=? n) && (n <=? 57))%nat.

(** [s.isdigit()] restricted to non-empty ASCII text. *)
Fixpoint all_digits (s : string) : bool :=
  match s with
  | EmptyString => true
  | String c r => is_digit c && all_digits r
  end.

Fixpoint contains (c : ascii) (s : string) : bool :=
  match s with
  | EmptyString => false
  | String d r => Ascii.eqb d c || contains c r
  end.

(** [s.startswith(p)], with what follows the prefix. *)
Fixpoint strip_prefix (p s : string) : option string :=
  match p with
  | EmptyString => Some s
  | String a p' =>
      match s with
      | String b s' => if Ascii.eqb a b then strip_prefix p' s' else None
      | EmptyString => None
      end
  end.

(** The scan of [s.replace(old, new)] for a non-empty [old]: left to
    right, occurrences not overlapping.  [fuel] bounds the number of
    steps; the length of [s] is enough since every step consumes a
    character. *)
Fixpoint replace_from (fuel : nat) (old new s : string) : string :=
  match fuel with
  | O => s
  | S fuel' =>
      match strip_prefix old s with
      | Some rest => new ++ replace_from fuel' old new rest
      | None =>
          match s with
          | EmptyString => EmptyString
          | String ch r => String ch (replace_from fuel' old new r)
          end
      end
  end.

(** [new] before every character and at the end: what [replace] does for
    an empty [old]. *)
Fixpoint interleave (new s : string) : string :=
  match s with
  | EmptyString => new
  | String ch r => new ++ String ch (interleave new r)
  end.

(** [s.replace(old, new)]. *)
Definition replace (old new s : string) : string :=
  match old with
  | EmptyString => interleave new s
  | _ => replace_from (String.length s) old new s
  end.

(** [sep.join(ws)]. *)
Fixpoint join (sep : string) (ws : list string) : string :=
  match ws with
  | [] => EmptyString
  | [w] => w
  | w :: rest => w ++ sep ++ join sep rest
  end.

(** [l[start:stop]]: a negative index counts from the end, an index out
    of range is clamped. *)
Definition slice {A : Type} (start stop : Z) (l : list A) : list A :=
  let n := Z.of_nat (length l) in
  let norm (i : Z) := if (i <? 0)%Z then Z.max 0 (n + i) else Z.min i n in
  firstn (Z.to_nat (norm stop - norm start)) (skipn (Z.to_nat (norm start)) l).

Definition is_upper (c : ascii) : bool :=
  let n := nat_of_ascii c in ((65 <=? n) && (n <=? 90))%nat.

Definition is_lower (c : ascii) : bool :=
  let n := nat_of_ascii c in ((97 <=? n) && (n <=? 122))%nat.

Definition upper_char (c : ascii) : ascii :=
  if is_lower c then ascii_of_nat (nat_of_ascii c - 32) else c.

(** The scan of [s.title()]: a letter after a letter is lowered, a letter
    after anything else is raised. *)
Fixpoint title_from (previous_is_cased : bool) (s : string) : string :=
  match s with
  | EmptyString => EmptyString
  | String ch r =>
      String (if previous_is_cased then lower_char ch else upper_char ch)
             (title_from (is_upper ch || is_lower ch) r)
  end.

(** [s.title()] on ASCII text. *)
Definition title (s : string) : string := title_from false s.

(** [str(cell)] of a text cell, as [astype(str)] renders it: a missing
    cell becomes the three letters [nan]. *)
Definition astype_str (cell : option string) : string :=
  match cell with
  | Some s => s
  | None => "nan"
  end.

End Str.

(** ** float64 cells *)

Module F64.

Local Open Scope Q_scope.

Inductive float64 : Type :=
| NaN
| PInf
| NInf
| Fin (q : Q).

Definition of_Z (z : Z) : float64 := Fin (inject_Z z).

(** An integer cell that may be blank. *)
Definition of_count (c : option Z) : float64 :=
  match c with
  | Some z => of_Z z
  | None => NaN
  end.

(** [pd.isna] / [pd.notna]: only NaN is null, an infinity is not. *)
Definition isna (x : float64) : bool :=
  match x with
  | NaN => true
  | _ => false
  end.

Definition notna (x : float64) : bool := negb (isna x).

Definition inf (positive : bool) : float64 := if positive then PInf else NInf.

(** Sign of a finite value, zero counted as positive. *)
Definition nonneg (q : Q) : bool := Qle_bool 0 q.

Definition is_zero (q : Q) : bool := Qeq_bool q 0.

Definition add (x y : float64) : float64 :=
  match x, y with
  | NaN, _ | _, NaN => NaN
  | Fin a, Fin b => Fin (a + b)
  | PInf, NInf | NInf, PInf => NaN
  | PInf, _ | _, PInf => PInf
  | NInf, _ | _, NInf => NInf
  end.

Definition sub (x y : float64) : float64 :=
  match x, y with
  | NaN, _ | _, NaN => NaN
  | Fin a, Fin b => Fin (a - b)
  | PInf, PInf | NInf, NInf => NaN
  | PInf, _ | _, NInf => PInf
  | NInf, _ | _, PInf => NInf
  end.

Definition mul (x y : float64) : float64 :=
  match x, y with
  | NaN, _ | _, NaN => NaN
  | Fin a, Fin b => Fin (a * b)
  | Fin a, PInf | PInf, Fin a =>
      if is_zero a then NaN else inf (nonneg a)
  | Fin a, NInf | NInf, Fin a =>
      if is_zero a then NaN else inf (negb (nonneg a))
  | PInf, PInf | NInf, NInf => PInf
  | PInf, NInf | NInf, PInf => NInf
  end.

(** numpy true division: a zero divisor gives an infinity or NaN, never
    an exception. *)
Definition div (x y : float64) : float64 :=
  match x, y with
  | NaN, _ | _, NaN => NaN
  | Fin a, Fin b =>
      if is_zero b then
        if is_zero a then NaN else inf (nonneg a)
      else Fin (a / b)
  | Fin _, _ => Fin 0
  | PInf, Fin b => inf (nonneg b)
  | NInf, Fin b => inf (negb (nonneg b))
  | _, _ => NaN
  end.

(** [np.rint] on a finite value: nearest integer, a tie goes to the even
    neighbour. *)
Definition rint_Q (q : Q) : Z :=
  let f := Qfloor q in
  match Qcompare (q - inject_Z f) (1 # 2) with
  | Lt => f
  | Gt => (f + 1)%Z
  | Eq => if Z.even f then f else (f + 1)%Z
  end.

Definition rint (x : float64) : float64 :=
  match x with
  | Fin q => of_Z (rint_Q q)
  | other => other
  end.

Definition pow10 (decimals : nat) : float64 := of_Z (10 ^ Z.of_nat decimals).

(** [Series.round(decimals)], that is [ndarray.round]: [rint] directly
    for no decimals, else scale, [rint], scale back. *)
Definition round (decimals : nat) (x : float64) : float64 :=
  match decimals with
  | O => rint x
  | _ => div (rint (mul x (pow10 decimals))) (pow10 decimals)
  end.

(** Built-in [int(x)] on a finite float: truncation toward zero. *)
Definition trunc_Q (q : Q) : Z := Z.quot (Qnum q) (Z.pos (Qden q)).

(** Value equality ([==] of numpy): NaN differs from everything. *)
Definition eqb (x y : float64) : bool :=
  match x, y with
  | Fin a, Fin b => Qeq_bool a b
  | PInf, PInf | NInf, NInf => true
  | _, _ => false
  end.

(** Two cells holding the same value: finite values are compared as
    rationals, not as fractions. *)
Definition equiv (x y : float64) : Prop :=
  match x, y with
  | NaN, NaN | PInf, PInf | NInf, NInf => True
  | Fin a, Fin b => a == b
  | _, _ => False
  end.

End F64.

Import F64.

(** ** binary64 cells, bit for bit *)

Module Binary64.

Import SpecFloat.

Local Open Scope Z_scope.

Definition prec : Z := 53.
Definition emax : Z := 1024.

(** The integer [k] as a binary64, rounded to nearest even when it does
    not fit; zero takes the sign [negative_zero]. *)
Definition of_integer (k : Z) (negative_zero : bool) : spec_float :=
  binary_normalize prec emax k 0 negative_zero.

(** An int64 cell converted for a float operation. *)
Definition of_int (z : Z) : spec_float := of_integer z false.

(** An integer cell that may be blank. *)
Definition of_count (c : option Z) : spec_float :=
  match c with
  | Some z => of_int z
  | None => S754_nan
  end.

Definition mul : spec_float -> spec_float -> spec_float := SFmul prec emax.
Definition div : spec_float -> spec_float -> spec_float := SFdiv prec emax.

(** The integer nearest to [m * 2^e], the even one on a tie. *)
Definition nearest_magnitude (m : positive) (e : Z) : Z :=
  if 0 <=? e then Z.pos m * 2 ^ e
  else
    let d := 2 ^ (- e) in
    let q := Z.pos m / d in
    let r := Z.pos m mod d in
    match 2 * r ?= d with
    | Lt => q
    | Gt => q + 1
    | Eq => if Z.even q then q else q + 1
    end.

Definition nearest_integer (s : bool) (m : positive) (e : Z) : Z :=
  if s then - nearest_magnitude m e else nearest_magnitude m e.

(** [np.rint]: NaN, the infinities and the zeros are returned as they
    are; a finite value becomes the nearest integer, the even one on a
    tie, a zero result keeping the sign. *)
Definition rint (x : spec_float) : spec_float :=
  match x with
  | S754_finite s m e => of_integer (nearest_integer s m e) s
  | other => other
  end.

(** [Series.round(decimals)], that is [ndarray.round]. *)
Definition round (decimals : nat) (x : spec_float) : spec_float :=
  match decimals with
  | O => rint x
  | _ =>
      let scale := of_int (10 ^ Z.of_nat decimals) in
      div (rint (mul x scale)) scale
  end.

(** The number a finite binary64 stands for; zero for the other cells. *)
Definition value (x : spec_float) : Q :=
  match x with
  | S754_finite s m e =>
      let signed := if s then Z.neg m else Z.pos m in
      if 0 <=? e then inject_Z (signed * 2 ^ e)
      else (inject_Z signed / inject_Z (2 ^ (- e)))%Q
  | _ => 0%Q
  end.

End Binary64.

(** ** [pandas.Series] reductions *)

Module Series.

(** [s.notna().sum()]. *)
Definition count (s : list float64) : nat :=
  length (List.filter notna s).

(** NaN cells are replaced by zero before the values are added up (the
    [fill_value=0] of pandas' nan-aware reductions). *)
Definition fillna0 (x : float64) : float64 :=
  if isna x then of_Z 0 else x.

Definition step (acc x : float64) : float64 := add acc (fillna0 x).

(** [s.sum()], [skipna] left at its default. *)
Definition sum (s : list float64) : float64 :=
  fold_left step s (of_Z 0).

(** [s.mean()]: the sum over the count of non-null cells, NaN when there
    is none. *)
Definition mean (s : list float64) : float64 :=
  let n := count s in
  let the_sum := sum s in
  if (0 <? n)%nat then div the_sum (of_Z (Z.of_nat n)) else NaN.

(** [s.nunique()]: distinct non-null values. *)
Definition nunique (s : list (option string)) : nat :=
  length (remove_dups (omap id s)).

End Series.

(** ** alice_data_consolidator.py *)

Module Consolidator.

(** A row of a state's [County] sheet whose columns are [expected_cols];
    household counts are integer cells, blank ones are [None]. *)
Record county_sheet_row : Type := {
  State : option string;
  Year : option Z;
  GEO_id2 : option string;
  GEO_display_label : option string;
  County : option string;
  State_Abbr : option string;
  Households : option Z;
  Poverty_Households : option Z;
  ALICE_Households : option Z;
  Above_ALICE_Households : option Z;
  ALICE_Threshold_HH_under_65 : option Z;
  ALICE_Threshold_HH_65_years_and_over : option Z
}.

Record county_row : Type := {
  sheet : county_sheet_row;
  Poverty_Percentage : float64;
  ALICE_Percentage : float64;
  Above_ALICE_Percentage : float64;
  Below_ALICE_Threshold_Total : float64;
  Below_ALICE_Threshold_Percentage : float64;
  Data_Source_File : string;
  Processing_Date : string
}.

Definition blank {A} (c : option A) : bool :=
  match c with
  | None => true
  | Some _ => false
  end.

(** The rows [df.dropna(how='all')] removes. *)
Definition all_na (r : county_sheet_row) : bool :=
  blank (State r) && blank (Year r) && blank (GEO_id2 r)
  && blank (GEO_display_label r) && blank (County r) && blank (State_Abbr r)
  && blank (Households r) && blank (Poverty_Households r)
  && blank (ALICE_Households r) && blank (Above_ALICE_Households r)
  && blank (ALICE_Threshold_HH_under_65 r)
  && blank (ALICE_Threshold_HH_65_years_and_over r).

(** [(numerator / df['Households'] * 100).round(2)] by value; the digits
    are those of [percentage_binary64] below. *)
Definition percentage (numerator households : float64) : float64 :=
  round 2 (mul (div numerator households) (of_Z 100)).

(** The columns added to one row.  The counts enter the arithmetic by
    their values: the sum of the two counts is the exact one, which is
    what the code computes as long as it stays within 2^53, whether pandas
    read the columns as int64 or, with a blank cell, as float64. *)
Definition clean_county_row (state_name today : string)
    (r : county_sheet_row) : county_row :=
  let households := of_count (Households r) in
  let total :=
    add (of_count (Poverty_Households r)) (of_count (ALICE_Households r)) in
  {| sheet := r;
     Poverty_Percentage :=
       percentage (of_count (Poverty_Households r)) households;
     ALICE_Percentage :=
       percentage (of_count (ALICE_Households r)) households;
     Above_ALICE_Percentage :=
       percentage (of_count (Above_ALICE_Households r)) households;
     Below_ALICE_Threshold_Total := total;
     Below_ALICE_Threshold_Percentage := percentage total households;
     Data_Source_File := state_name;
     Processing_Date := today |}.

(** [clean_county_data] on a sheet that carries the four household
    columns (the guarded branch); [today] is the processing date. *)
Definition clean_county_data (df : list county_sheet_row)
    (state_name today : string) : list county_row :=
  map (clean_county_row state_name today)
      (List.filter (fun r => negb (all_na r)) df).

(** [(numerator / df['Households'] * 100).round(2)] on the binary64
    values of the two columns: the digits the code stores. *)
Definition percentage_binary64 (numerator households : SpecFloat.spec_float)
    : SpecFloat.spec_float :=
  Binary64.round 2
    (Binary64.mul (Binary64.div numerator households) (Binary64.of_int 100)).

Definition Poverty_Percentage_binary64 (r : county_sheet_row)
    : SpecFloat.spec_float :=
  percentage_binary64 (Binary64.of_count (Poverty_Households r))
                      (Binary64.of_count (Households r)).

Definition ALICE_Percentage_binary64 (r : county_sheet_row)
    : SpecFloat.spec_float :=
  percentage_binary64 (Binary64.of_count (ALICE_Households r))
                      (Binary64.of_count (Households r)).

Definition Above_ALICE_Percentage_binary64 (r : county_sheet_row)
    : SpecFloat.spec_float :=
  percentage_binary64 (Binary64.of_count (Above_ALICE_Households r))
                      (Binary64.of_count (Households r)).

(** [extract_state_name]: the words between the second and the
    second-to-last underscore, separated by spaces; the file name itself
    when it has fewer than three parts. *)
Definition extract_state_name (filename : string) : string :=
  let parts := Str.split "_" (Str.replace ".xlsx" "" filename) in
  if (3 <=? length parts)%nat
  then Str.replace "_" " " (Str.join "_" (Str.slice 2 (-2) parts))
  else filename.

(** A row of a state's [Subcounty] sheet whose columns are the
    [expected_cols] of [clean_subcounty_data]. *)
Record subcounty_sheet_row : Type := {
  sub_State : option string;
  sub_Year : option Z;
  sub_Type : option string;
  sub_GEO_id2 : option string;
  sub_GEO_display_label : option string;
  sub_Households : option Z;
  sub_Poverty_Households : option Z;
  sub_ALICE_Households : option Z;
  sub_Above_ALICE_Households : option Z;
  sub_County : option string
}.

Record subcounty_row : Type := {
  sub_sheet : subcounty_sheet_row;
  sub_Poverty_Percentage : float64;
  sub_ALICE_Percentage : float64;
  sub_Above_ALICE_Percentage : float64;
  sub_Below_ALICE_Threshold_Total : float64;
  sub_Below_ALICE_Threshold_Percentage : float64;
  sub_Data_Source_File : string;
  sub_Processing_Date : string
}.

Definition sub_all_na (r : subcounty_sheet_row) : bool :=
  blank (sub_State r) && blank (sub_Year r) && blank (sub_Type r)
  && blank (sub_GEO_id2 r) && blank (sub_GEO_display_label r)
  && blank (sub_Households r) && blank (sub_Poverty_Households r)
  && blank (sub_ALICE_Households r) && blank (sub_Above_ALICE_Households r)
  && blank (sub_County r).

Definition clean_subcounty_row (state_name today : string)
    (r : subcounty_sheet_row) : subcounty_row :=
  let households := of_count (sub_Households r) in
  let total :=
    add (of_count (sub_Poverty_Households r))
        (of_count (sub_ALICE_Households r)) in
  {| sub_sheet := r;
     sub_Poverty_Percentage :=
       percentage (of_count (sub_Poverty_Households r)) households;
     sub_ALICE_Percentage :=
       percentage (of_count (sub_ALICE_Households r)) households;
     sub_Above_ALICE_Percentage :=
       percentage (of_count (sub_Above_ALICE_Households r)) households;
     sub_Below_ALICE_Threshold_Total := total;
     sub_Below_ALICE_Threshold_Percentage := percentage total households;
     sub_Data_Source_File := state_name;
     sub_Processing_Date := today |}.

Definition clean_subcounty_data (df : list subcounty_sheet_row)
    (state_name today : string) : list subcounty_row :=
  map (clean_subcounty_row state_name today)
      (List.filter (fun r => negb (sub_all_na r)) df).

(** What reading a sheet of a workbook gives: the sheet is not there,
    reading or cleaning it raises, or its rows. *)
Inductive sheet_read (A : Type) : Type :=
| Absent
| Raises
| Rows (df : list A).

Arguments Absent {A}.
Arguments Raises {A}.
Arguments Rows {A} df.

Record workbook : Type := {
  County_sheet : sheet_read county_sheet_row;
  Subcounty_sheet : sheet_read subcounty_sheet_row
}.

(** An Excel file of the input directory; [None] when [pd.ExcelFile]
    raises on it. *)
Record excel_file : Type := {
  file_name : string;
  opened : option workbook
}.

Record processing_stats : Type := {
  files_processed : nat;
  files_failed : nat;
  stat_total_counties : nat;
  total_subcounty_areas : nat;
  failed_files : list string
}.

(** The fields of an [ALICEDataConsolidator]. *)
Record consolidator : Type := {
  master_county : list county_row;
  master_subcounty : list subcounty_row;
  stats : processing_stats
}.

(** The state [__init__] leaves. *)
Definition init : consolidator :=
  {| master_county := [];
     master_subcounty := [];
     stats := {| files_processed := 0; files_failed := 0;
                 stat_total_counties := 0; total_subcounty_areas := 0;
                 failed_files := [] |} |}.

(** [pd.concat] onto the master county table and the row counter. *)
Definition add_county (st : consolidator) (county_df : list county_row)
    : consolidator :=
  {| master_county := (master_county st ++ county_df)%list;
     master_subcounty := master_subcounty st;
     stats :=
       {| files_processed := files_processed (stats st);
          files_failed := files_failed (stats st);
          stat_total_counties :=
            stat_total_counties (stats st) + length county_df;
          total_subcounty_areas := total_subcounty_areas (stats st);
          failed_files := failed_files (stats st) |} |}.

Definition add_subcounty (st : consolidator)
    (subcounty_df : list subcounty_row) : consolidator :=
  {| master_county := master_county st;
     master_subcounty := (master_subcounty st ++ subcounty_df)%list;
     stats :=
       {| files_processed := files_processed (stats st);
          files_failed := files_failed (stats st);
          stat_total_counties := stat_total_counties (stats st);
          total_subcounty_areas :=
            total_subcounty_areas (stats st) + length subcounty_df;
          failed_files := failed_files (stats st) |} |}.

(** [process_single_file]: the state it leaves and whether it returned
    ([true]) or raised ([false]).  What was added before an exception
    stays. *)
Definition process_single_file (today : string) (st : consolidator)
    (f : excel_file) : consolidator * bool :=
  let state_name := extract_state_name (file_name f) in
  match opened f with
  | None => (st, false)
  | Some xl =>
      match County_sheet xl with
      | Raises => (st, false)
      | county =>
          let st1 :=
            match county with
            | Rows df => add_county st (clean_county_data df state_name today)
            | _ => st
            end in
          match Subcounty_sheet xl with
          | Raises => (st1, false)
          | Rows df =>
              (add_subcounty st1 (clean_subcounty_data df state_name today),
               true)
          | Absent => (st1, true)
          end
      end
  end.

Definition count_processed (st : consolidator) : consolidator :=
  {| master_county := master_county st;
     master_subcounty := master_subcounty st;
     stats :=
       {| files_processed := files_processed (stats st) + 1;
          files_failed := files_failed (stats st);
          stat_total_counties := stat_total_counties (stats st);
          total_subcounty_areas := total_subcounty_areas (stats st);
          failed_files := failed_files (stats st) |} |}.

Definition count_failed (name : string) (st : consolidator) : consolidator :=
  {| master_county := master_county st;
     master_subcounty := master_subcounty st;
     stats :=
       {| files_processed := files_processed (stats st);
          files_failed := files_failed (stats st) + 1;
          stat_total_counties := stat_total_counties (stats st);
          total_subcounty_areas := total_subcounty_areas (stats st);
          failed_files := (failed_files (stats st) ++ [name])%list |} |}.

(** The body of the loop of [process_all_files]. *)
Definition process_file (today : string) (st : consolidator)
    (f : excel_file) : consolidator :=
  let '(st', returned) := process_single_file today st f in
  if returned then count_processed st' else count_failed (file_name f) st'.

Definition process_all_files (today : string) (st : consolidator)
    (excel_files : list excel_file) : consolidator :=
  fold_left (process_file today) excel_files st.

(** The master county table by columns; a column no sheet provided is
    [None]. *)
Record master_frame : Type := {
  col_State : list (option string);
  col_Households : option (list float64);
  col_Poverty_Percentage : option (list float64);
  col_ALICE_Percentage : option (list float64);
  col_Below_ALICE_Threshold_Percentage : option (list float64)
}.

Record county_stats : Type := {
  total_counties : nat;
  total_states : nat;
  total_households_county : float64;
  avg_poverty_percentage : float64;
  avg_alice_percentage : float64;
  avg_below_alice_threshold : float64
}.

(** [col.mean() if name in columns else 0]. *)
Definition mean_if_present (col : option (list float64)) : float64 :=
  match col with
  | Some c => Series.mean c
  | None => of_Z 0
  end.

Definition sum_if_present (col : option (list float64)) : float64 :=
  match col with
  | Some c => Series.sum c
  | None => of_Z 0
  end.

(** The [county] entry of [create_summary_statistics]; absent when the
    master table is empty. *)
Definition create_summary_statistics (master_county : master_frame)
    : option county_stats :=
  match col_State master_county with
  | [] => None
  | states =>
      Some {| total_counties := length states;
              total_states := Series.nunique states;
              total_households_county :=
                sum_if_present (col_Households master_county);
              avg_poverty_percentage :=
                mean_if_present (col_Poverty_Percentage master_county);
              avg_alice_percentage :=
                mean_if_present (col_ALICE_Percentage master_county);
              avg_below_alice_threshold :=
                mean_if_present
                  (col_Below_ALICE_Threshold_Percentage master_county) |}
  end.

End Consolidator.

(** ** alice_data_cleaner.py *)

Module Cleaner.

(** [df['Year'].max()]: the largest year that is not missing, missing when
    there is none. *)
Fixpoint year_max (years : list (option Z)) : option Z :=
  match years with
  | [] => None
  | y :: rest =>
      match y, year_max rest with
      | Some a, Some b => Some (Z.max a b)
      | Some a, None => Some a
      | None, m => m
      end
  end.

Definition Year (r : Consolidator.county_row) : option Z :=
  Consolidator.Year (Consolidator.sheet r).

(** [Year == max] on a cell; a missing cell or a missing maximum compares
    false. *)
Definition is_year (m : option Z) (r : Consolidator.county_row) : bool :=
  match Year r, m with
  | Some y, Some x => Z.eqb y x
  | _, _ => false
  end.

(** [county_df[county_df['Year'] == county_df['Year'].max()]]. *)
Definition current_county (county_df : list Consolidator.county_row)
    : list Consolidator.county_row :=
  List.filter (is_year (year_max (map Year county_df))) county_df.

End Cleaner.

(** ** alice_tiger_integration.py *)

Module Tiger.

(** A county of the Census shapefile; the polygon is carried as its
    vertex list and never inspected. *)
Definition polygon : Type := list (Z * Z).

Record county : Type := {
  GEOID : string;
  NAME : string;
  STUSPS : string;
  geometry : polygon
}.

(** The columns of [ALICE_Mapping_County_Data.csv]; every cell may be
    missing.  [State_Abbr_col] is the column named [State Abbr]. *)
Record alice_cols : Type := {
  State : option string;
  State_Abbr_col : option string;
  County : option string;
  GEO_id2 : option string;
  GEO_display_label : option string;
  Households : float64;
  Poverty_Percentage : float64;
  ALICE_Percentage : float64;
  Below_ALICE_Threshold_Percentage : float64;
  Above_ALICE_Percentage : float64
}.

(** An ALICE row once the [FIPS] column is added. *)
Record alice_row : Type := {
  cols : alice_cols;
  FIPS : string
}.

(** A row of [merged_gdf]: the county, the ALICE columns (all missing
    when nothing matched) and the right key. *)
Record merged_row : Type := {
  shape : county;
  attrs : alice_cols;
  FIPS_y : option string
}.

(** A row of the returned frame, the [FIPS] column dropped. *)
Record choropleth_row : Type := {
  c_shape : county;
  c_attrs : alice_cols
}.

(** [df['GEO id2'].astype(str).str.split('.').str[0].str.zfill(5)]. *)
Definition clean_FIPS (geo_id2 : option string) : string :=
  Str.zfill 5 (Str.first (Str.split "." (Str.astype_str geo_id2))).

Definition load_alice_data (df : list alice_cols) : list alice_row :=
  map (fun a => {| cols := a; FIPS := clean_FIPS (GEO_id2 a) |}) df.

(** [alice_df['FIPS'].str.len() == 5]. *)
Definition valid_fips (f : string) : bool :=
  Nat.eqb (String.length f) 5.

(** The key a row is joined on in the primary join: its [FIPS] when the
    row is kept in [valid_fips_alice], nothing when it goes to
    [missing_fips_alice]. *)
Definition canonicalize (geo_id2 : option string) : option string :=
  let fips := clean_FIPS geo_id2 in
  if valid_fips fips then Some fips else None.

Definition null_cols : alice_cols :=
  {| State := None; State_Abbr_col := None; County := None;
     GEO_id2 := None; GEO_display_label := None;
     Households := NaN; Poverty_Percentage := NaN; ALICE_Percentage := NaN;
     Below_ALICE_Threshold_Percentage := NaN;
     Above_ALICE_Percentage := NaN |}.

Definition unmatched (c : county) : merged_row :=
  {| shape := c; attrs := null_cols; FIPS_y := None |}.

Definition joined (c : county) (a : alice_row) : merged_row :=
  {| shape := c; attrs := cols a; FIPS_y := Some (FIPS a) |}.

(** The right rows whose key equals the key of [c], in right order. *)
Fixpoint lookup_right (c : county) (right : list alice_row)
    : list alice_row :=
  match right with
  | [] => []
  | a :: rest =>
      if String.eqb (GEOID c) (FIPS a) then a :: lookup_right c rest
      else lookup_right c rest
  end.

(** [left.merge(right, left_on='GEOID', right_on='FIPS', how='left')]:
    left order is kept; a left row is emitted once per matching right
    row, or once with missing right columns when there is none. *)
Definition rows_of (right : list alice_row) (c : county)
    : list merged_row :=
  match lookup_right c right with
  | [] => [unmatched c]
  | hits => map (joined c) hits
  end.

Fixpoint merge (left : list county) (right : list alice_row)
    : list merged_row :=
  match left with
  | [] => []
  | c :: rest => (rows_of right c ++ merge rest right)%list
  end.

Definition state_mapping : gmap string string :=
  list_to_map
    [ ("Alabama", "AL"); ("Alaska", "AK"); ("Arizona", "AZ");
      ("Arkansas", "AR"); ("California", "CA"); ("Colorado", "CO");
      ("Connecticut", "CT"); ("Delaware", "DE"); ("Florida", "FL");
      ("Georgia", "GA"); ("Hawaii", "HI"); ("Idaho", "ID");
      ("Illinois", "IL"); ("Indiana", "IN"); ("Iowa", "IA");
      ("Kansas", "KS"); ("Kentucky", "KY"); ("Louisiana", "LA");
      ("Maine", "ME"); ("Maryland", "MD"); ("Massachusetts", "MA");
      ("Michigan", "MI"); ("Minnesota", "MN"); ("Mississippi", "MS");
      ("Missouri", "MO"); ("Montana", "MT"); ("Nebraska", "NE");
      ("Nevada", "NV"); ("New Hampshire", "NH"); ("New Jersey", "NJ");
      ("New Mexico", "NM"); ("New York", "NY"); ("North Carolina", "NC");
      ("North Dakota", "ND"); ("Ohio", "OH"); ("Oklahoma", "OK");
      ("Oregon", "OR"); ("Pennsylvania", "PA"); ("Rhode Island", "RI");
      ("South Carolina", "SC"); ("South Dakota", "SD");
      ("Tennessee", "TN"); ("Texas", "TX"); ("Utah", "UT");
      ("Vermont", "VT"); ("Virginia", "VA"); ("Washington", "WA");
      ("West Virginia", "WV"); ("Wisconsin", "WI"); ("Wyoming", "WY") ].

(** [missing_fips_alice['State'].map(state_mapping)]: missing when the
    state is missing or not a key. *)
Definition State_Abbr (a : alice_row) : option string :=
  match State (cols a) with
  | Some name => state_mapping !! name
  | None => None
  end.

(** The counties with the state abbreviation and, case-insensitively,
    the county name of the row. *)
Fixpoint county_match (counties_gdf : list county) (abbr name : string)
    : list county :=
  match counties_gdf with
  | [] => []
  | c :: rest =>
      if String.eqb (STUSPS c) abbr
         && String.eqb (Str.lower (NAME c)) (Str.lower name)
      then c :: county_match rest abbr name
      else county_match rest abbr name
  end.

(** The columns the secondary join copies when they are not null. *)
Definition metric_columns : list (alice_cols -> float64) :=
  [ Households; Poverty_Percentage; ALICE_Percentage;
    Below_ALICE_Threshold_Percentage; Above_ALICE_Percentage ].

(** [if pd.notna(alice_row[col]): merged_gdf.loc[mask, col] = ...]. *)
Definition assign_notna (new old : float64) : float64 :=
  if notna new then new else old.

(** The assignments of the secondary join on one masked row. *)
Definition update (a : alice_cols) (m : merged_row) : merged_row :=
  let old := attrs m in
  {| shape := shape m;
     attrs :=
       {| State := State a;
          State_Abbr_col := State_Abbr_col old;
          County := County a;
          GEO_id2 := GEO_id2 old;
          GEO_display_label := GEO_display_label old;
          Households := assign_notna (Households a) (Households old);
          Poverty_Percentage :=
            assign_notna (Poverty_Percentage a) (Poverty_Percentage old);
          ALICE_Percentage :=
            assign_notna (ALICE_Percentage a) (ALICE_Percentage old);
          Below_ALICE_Threshold_Percentage :=
            assign_notna (Below_ALICE_Threshold_Percentage a)
                         (Below_ALICE_Threshold_Percentage old);
          Above_ALICE_Percentage :=
            assign_notna (Above_ALICE_Percentage a)
                         (Above_ALICE_Percentage old) |};
     FIPS_y := FIPS_y m |}.

(** [mask = merged_gdf['GEOID'] == geoid]. *)
Definition mask (geoid : string) (m : merged_row) : bool :=
  String.eqb (GEOID (shape m)) geoid.

(** [merged_gdf.loc[mask, ...] = ...]. *)
Definition update_masked (geoid : string) (a : alice_cols)
    (merged_gdf : list merged_row) : list merged_row :=
  map (fun m => if mask geoid m then update a m else m) merged_gdf.

(** The [geoid] an iteration of the loop over [missing_fips_alice]
    settles on: none when the county or the abbreviation is missing
    ([continue]) or when [len(county_match) == 1] fails. *)
Definition fallback_target (counties_gdf : list county) (a : alice_row)
    : option string :=
  match County (cols a), State_Abbr a with
  | Some name, Some abbr =>
      match county_match counties_gdf abbr name with
      | [c] => Some (GEOID c)
      | _ => None
      end
  | _, _ => None
  end.

(** One iteration of that loop. *)
Definition secondary_join_row (counties_gdf : list county)
    (merged_gdf : list merged_row) (a : alice_row) : list merged_row :=
  match fallback_target counties_gdf a with
  | Some geoid => update_masked geoid (cols a) merged_gdf
  | None => merged_gdf
  end.

Definition secondary_join (counties_gdf : list county)
    (merged_gdf : list merged_row) (missing_fips_alice : list alice_row)
    : list merged_row :=
  fold_left (secondary_join_row counties_gdf) missing_fips_alice merged_gdf.

Definition zfill_GEOID (c : county) : county :=
  {| GEOID := Str.zfill 5 (GEOID c); NAME := NAME c; STUSPS := STUSPS c;
     geometry := geometry c |}.

Definition drop_FIPS (m : merged_row) : choropleth_row :=
  {| c_shape := shape m; c_attrs := attrs m |}.

(** The frame before the [FIPS] column is dropped. *)
Definition merged_gdf (shapefile : list county) (csv : list alice_cols)
    : list merged_row :=
  let counties_gdf := map zfill_GEOID shapefile in
  let alice_df := load_alice_data csv in
  let valid_fips_alice :=
    List.filter (fun a => valid_fips (FIPS a)) alice_df in
  let missing_fips_alice :=
    List.filter (fun a => negb (valid_fips (FIPS a))) alice_df in
  let merged := merge counties_gdf valid_fips_alice in
  match missing_fips_alice with
  | [] => merged
  | _ => secondary_join counties_gdf merged missing_fips_alice
  end.

Definition create_county_choropleth_data (shapefile : list county)
    (csv : list alice_cols) : list choropleth_row :=
  map drop_FIPS (merged_gdf shapefile csv).

Record stats : Type := {
  total_counties : nat;
  counties_with_alice_data : nat;
  avg_alice_percentage : float64;
  avg_poverty_percentage : float64;
  total_households : float64;
  data_coverage_percent : float64
}.

Definition create_summary_stats (gdf : list choropleth_row) : stats :=
  let alice := map (fun r => ALICE_Percentage (c_attrs r)) gdf in
  {| total_counties := length gdf;
     counties_with_alice_data := Series.count alice;
     avg_alice_percentage := Series.mean alice;
     avg_poverty_percentage :=
       Series.mean (map (fun r => Poverty_Percentage (c_attrs r)) gdf);
     total_households :=
       Series.sum (map (fun r => Households (c_attrs r)) gdf);
     data_coverage_percent :=
       mul (div (of_Z (Z.of_nat (Series.count alice)))
                (of_Z (Z.of_nat (length gdf))))
           (of_Z 100) |}.

End Tiger.

(** ** alice_census_integration.py *)

Module Census.

Local Open Scope Q_scope.

(** The columns [integrate_all_data] reads from the frame merged with
    the Census table. *)
Record merged_row : Type := {
  GEOID : string;
  Households : float64;
  ALICE_Percentage : float64;
  Poverty_Percentage : float64;
  Total_Population : float64
}.

Definition Population_Per_Household (r : merged_row) : float64 :=
  round 2 (div (Total_Population r) (Households r)).

(** [(Total_Population * ALICE_Percentage / 100).round(0)] by value; the
    digits are those of [derived_population_binary64] below. *)
Definition ALICE_Population (r : merged_row) : float64 :=
  round 0 (div (mul (Total_Population r) (ALICE_Percentage r)) (of_Z 100)).

Definition Poverty_Population (r : merged_row) : float64 :=
  round 0 (div (mul (Total_Population r) (Poverty_Percentage r)) (of_Z 100)).


(** [(Total_Population * percentage / 100).round(0)] on the binary64
    values of the two columns: the digits the code stores for
    [ALICE_Population] and [Poverty_Population]. *)
Definition derived_population_binary64
    (total_population percentage : SpecFloat.spec_float)
    : SpecFloat.spec_float :=
  Binary64.round 0
    (Binary64.div (Binary64.mul total_population percentage)
                  (Binary64.of_int 100)).

(** A county of the Census API answer: the two code columns as text,
    the variables after [pd.to_numeric(errors='coerce')]. *)
Record api_row : Type := {
  state : string;
  county : string;
  api_Total_Population : float64;
  Owner_Occupied_Housing : float64;
  Renter_Occupied_Housing : float64;
  Bachelors_Degree : float64;
  Masters_Degree : float64;
  Professional_Degree : float64;
  Doctorate_Degree : float64;
  Age_65_To_74 : float64;
  Age_75_To_84 : float64;
  Age_85_Plus : float64;
  api_White_Alone : float64;
  Work_From_Home : float64;
  Total_Commuters : float64;
  Unemployed : float64
}.

(** [df['state'].astype(str).str.zfill(2)
     + df['county'].astype(str).str.zfill(3)]. *)
Definition api_FIPS (r : api_row) : string :=
  Str.zfill 2 (state r) ++ Str.zfill 3 (county r).

(** [(numerator / denominator * 100).round(1)]. *)
Definition rate (numerator denominator : float64) : float64 :=
  round 1 (mul (div numerator denominator) (of_Z 100)).

Definition api_Population_Density (r : api_row) : float64 :=
  div (api_Total_Population r) (of_Z 100).


Definition api_College_Degree_Rate (r : api_row) : float64 :=
  rate (add (add (add (Bachelors_Degree r) (Masters_Degree r))
                 (Professional_Degree r))
            (Doctorate_Degree r))
       (api_Total_Population r).

Definition api_Elderly_Population_Rate (r : api_row) : float64 :=
  rate (add (add (Age_65_To_74 r) (Age_75_To_84 r)) (Age_85_Plus r))
       (api_Total_Population r).

Definition api_Minority_Population_Rate (r : api_row) : float64 :=
  rate (sub (api_Total_Population r) (api_White_Alone r))
       (api_Total_Population r).

Definition api_Work_From_Home_Rate (r : api_row) : float64 :=
  rate (Work_From_Home r) (Total_Commuters r).

Definition api_Unemployment_Rate (r : api_row) : float64 :=
  rate (Unemployed r) (api_Total_Population r).

(** The columns of the ALICE table the mock generator reads. *)
Record alice_row : Type := {
  GEO_id2 : option string;
  alice_Households : float64
}.

Record mock_row : Type := {
  FIPS : string;
  mock_Total_Population : Z;
  Total_Housing_Units : Z;
  Median_Household_Income : Z;
  Median_Home_Value : Z;
  White_Alone : Z;
  Black_Alone : Z;
  Hispanic_Latino : Z;
  Asian_Alone : Z;
  College_Degree_Rate : float64;
  Homeownership_Rate : float64;
  Elderly_Population_Rate : float64;
  Work_From_Home_Rate : float64;
  Unemployment_Rate : float64;
  Minority_Population_Rate : float64
}.

(** A household cell that is a number or blank, not an infinity. *)
Definition finite (x : float64) : Prop := x <> PInf /\ x <> NInf.

(** [x < bound] on floats; false on NaN. *)
Definition ltb (x : float64) (bound : Q) : bool :=
  match x with
  | Fin q => negb (Qle_bool bound q)
  | NInf => true
  | _ => false
  end.

Section MockDemographics.

(** numpy's global generator: its state, [np.random.seed] and one draw
    of [np.random.normal(loc, scale)] (a finite float). *)
Variable rng : Type.
Variable seed : Z -> rng.
Variable normal : Q -> Q -> rng -> Q * rng.

(** Code that reads and advances the generator and may raise. *)
Definition Gen (A : Type) : Type := rng -> option (A * rng).

Definition ret {A} (a : A) : Gen A := fun s => Some (a, s).

Definition bind {A B} (m : Gen A) (k : A -> Gen B) : Gen B :=
  fun s =>
    match m s with
    | Some (a, s') => k a s'
    | None => None
    end.

Notation "'let*' x ':=' m 'in' k" := (bind m (fun x => k))
  (at level 10, x pattern, m at level 100, k at level 200).

Definition draw (loc scale : Q) : Gen float64 :=
  fun s => let '(x, s') := normal loc scale s in Some (Fin x, s').

(** [int(x)]: raises on NaN and on an infinity. *)
Definition py_int (x : float64) : Gen Z :=
  fun s =>
    match x with
    | Fin q => Some (trunc_Q q, s)
    | _ => None
    end.

Definition c (q : Q) : float64 := Fin q.

(** The body of the loop for a row whose code has five characters. *)
Definition mock_county (fips : string) (row : alice_row) : Gen mock_row :=
  let households :=
    if notna (alice_Households row) then alice_Households row
    else of_Z 10000 in
  let* n1 := draw 0 (3 # 10) in
  let* population := py_int (mul households (add (c (23 # 10)) n1)) in
  let rural_factor : Q :=
    if ltb households 5000 then 1
    else if ltb households 25000 then 1 # 2 else 1 # 5 in
  let urban_factor : Q := 1 - rural_factor in
  let pop := of_Z population in
  let* housing := py_int (mul households (c (115 # 100))) in
  let* n2 := draw 0 15000 in
  let* income :=
    py_int (add (add (c 35000) n2) (c (urban_factor * 20000))) in
  let* n3 := draw 0 80000 in
  let* home :=
    py_int (add (add (c 120000) n3) (c (urban_factor * 100000))) in
  let* n4 := draw 0 (1 # 10) in
  let* white := py_int
    (mul pop (add (c ((6 # 10) + rural_factor * (2 # 10))) n4)) in
  let* n5 := draw 0 (8 # 100) in
  let* black := py_int (mul pop (add (c (12 # 100)) n5)) in
  let* n6 := draw 0 (1 # 10) in
  let* hispanic := py_int (mul pop (add (c (15 # 100)) n6)) in
  let* n7 := draw 0 (2 # 100) in
  let* asian := py_int
    (mul pop (add (c ((3 # 100) + urban_factor * (5 # 100))) n7)) in
  let* n8 := draw 0 8 in
  let* n9 := draw 0 8 in
  let* n10 := draw 0 3 in
  let* n11 := draw 0 3 in
  let* n12 := draw 0 2 in
  ret {| FIPS := fips;
         mock_Total_Population := population;
         Total_Housing_Units := housing;
         Median_Household_Income := income;
         Median_Home_Value := home;
         White_Alone := white;
         Black_Alone := black;
         Hispanic_Latino := hispanic;
         Asian_Alone := asian;
         College_Degree_Rate :=
           round 1 (add (c (15 + urban_factor * 15)) n8);
         Homeownership_Rate :=
           round 1 (add (c (65 + rural_factor * 10)) n9);
         Elderly_Population_Rate :=
           round 1 (add (c (12 + rural_factor * 5)) n10);
         Work_From_Home_Rate :=
           round 1 (add (c (3 + urban_factor * 8)) n11);
         Unemployment_Rate := round 1 (add (c 4) n12);
         Minority_Population_Rate :=
           round 1 (c ((1 - ((6 # 10) + rural_factor * (2 # 10))) * 100))
      |}.

(** The loop over [alice_df.iterrows()]; a row whose code has not five
    characters is skipped before anything is drawn. *)
Fixpoint mock_rows (alice_df : list alice_row) : Gen (list mock_row) :=
  match alice_df with
  | [] => ret []
  | row :: rest =>
      let fips :=
        Str.zfill 5
          (Str.first (Str.split "." (Str.astype_str (GEO_id2 row)))) in
      if negb (Nat.eqb (String.length fips) 5) then mock_rows rest
      else
        let* r := mock_county fips row in
        let* rs := mock_rows rest in
        ret (r :: rs)
  end.

(** [np.random.seed(n)]: the state becomes the one the seed fixes. *)
Definition np_random_seed (n : Z) : Gen unit :=
  fun _ => Some (tt, seed n).

(** [_create_mock_demographics] as code that runs on the global
    generator: the records and the state left behind, or [None] when
    an exception is raised. *)
Definition _create_mock_demographics (alice_df : list alice_row)
    : Gen (list mock_row) :=
  let* _ := np_random_seed 42 in
  mock_rows alice_df.

End MockDemographics.

End Census.

(** ** alice_data_scraper.py *)

Module Scraper.

Definition ALL_STATES : list string :=
  [ "alabama"; "alaska"; "arizona"; "arkansas"; "california"; "colorado";
    "connecticut"; "delaware"; "florida"; "georgia"; "hawaii"; "idaho";
    "illinois"; "indiana"; "iowa"; "kansas"; "kentucky"; "louisiana";
    "maine"; "maryland"; "massachusetts"; "michigan"; "minnesota";
    "mississippi"; "missouri"; "montana"; "nebraska"; "nevada";
    "new-hampshire"; "new-jersey"; "new-mexico"; "new-york";
    "north-carolina"; "north-dakota"; "ohio"; "oklahoma"; "oregon";
    "pennsylvania"; "rhode-island"; "south-carolina"; "south-dakota";
    "tennessee"; "texas"; "utah"; "vermont"; "virginia"; "washington";
    "west-virginia"; "wisconsin"; "wyoming"; "district-of-columbia" ].

Definition state_name_mappings : list (string * string) :=
  [ ("district-of-columbia", "District of Columbia");
    ("new-hampshire", "New Hampshire");
    ("new-jersey", "New Jersey");
    ("new-mexico", "New Mexico");
    ("new-york", "New York");
    ("north-carolina", "North Carolina");
    ("north-dakota", "North Dakota");
    ("rhode-island", "Rhode Island");
    ("south-carolina", "South Carolina");
    ("south-dakota", "South Dakota");
    ("west-virginia", "West Virginia") ].

(** [state_name_mappings.get(state_slug,
       state_slug.replace('-', ' ').title())]. *)
Definition state_display_name (state_slug : string) : string :=
  default (Str.title (Str.replace "-" " " state_slug))
          ((list_to_map state_name_mappings : gmap string string)
             !! state_slug).

(** The name the sheet of a state is saved under, whatever the year of
    the sheet that was found. *)
Definition filename (state_slug : string) : string :=
  "2025_ALICE_"
  ++ Str.replace " " "_" (state_display_name state_slug)
  ++ "_Data_Sheet.xlsx".

End Scraper.

(** ** Vocabulary of the statements and sample data *)

Module Spec.

Local Open Scope Q_scope.

(** [k] is a nearest integer of [x], the even one when [x] lies halfway
    between two integers. *)
Definition nearest_ties_even (k : Z) (x : Q) : Prop :=
  Qabs (inject_Z k - x) <= 1 # 2 /\
  (Qabs (inject_Z k - x) == 1 # 2 -> Z.even k = true).


(** Text with no underscore and no point. *)
Definition plain (s : string) : Prop :=
  Str.contains "_" s = false /\ Str.contains "." s = false.

(** A county sheet row with the given household counts. *)
Definition sheet_row (households poverty alice above : option Z)
    : Consolidator.county_sheet_row :=
  {| Consolidator.State := Some "Texas";
     Consolidator.Year := Some 2023%Z;
     Consolidator.GEO_id2 := Some "48201";
     Consolidator.GEO_display_label := Some "Harris County, Texas";
     Consolidator.County := Some "Harris";
     Consolidator.State_Abbr := Some "TX";
     Consolidator.Households := households;
     Consolidator.Poverty_Households := poverty;
     Consolidator.ALICE_Households := alice;
     Consolidator.Above_ALICE_Households := above;
     Consolidator.ALICE_Threshold_HH_under_65 := None;
     Consolidator.ALICE_Threshold_HH_65_years_and_over := None |}.


(** One household in poverty out of 32. *)
Definition row_one_in_32 : Consolidator.county_sheet_row :=
  sheet_row (Some 32%Z) (Some 1%Z) (Some 2%Z) (Some 29%Z).

(** 23 households in poverty and 49 ALICE households out of 160. *)
Definition row_23_in_160 : Consolidator.county_sheet_row :=
  sheet_row (Some 160%Z) (Some 23%Z) (Some 49%Z) (Some 88%Z).

(** A metric cell: a value or a null. *)
Definition cell (c : option Q) : float64 :=
  match c with
  | Some q => Fin q
  | None => NaN
  end.

(** The values of the cells that are not null, in order. *)
Fixpoint non_null (cells : list (option Q)) : list Q :=
  match cells with
  | [] => []
  | Some q :: rest => q :: non_null rest
  | None :: rest => non_null rest
  end.

(** The arithmetic mean of a list of values. *)
Definition arithmetic_mean (values : list Q) : Q :=
  fold_left Qplus values 0 / inject_Z (Z.of_nat (length values)).

(** A master table of two counties whose sheets had no household
    columns: [clean_county_data] added no percentage column. *)
Definition frame_without_percentages : Consolidator.master_frame :=
  {| Consolidator.col_State := [Some "Texas"; Some "Utah"];
     Consolidator.col_Households := None;
     Consolidator.col_Poverty_Percentage := None;
     Consolidator.col_ALICE_Percentage := None;
     Consolidator.col_Below_ALICE_Threshold_Percentage := None |}.

(** A master table of two counties with blank household cells: the
    poverty percentages are all null, one ALICE percentage is. *)
Definition frame_with_nulls : Consolidator.master_frame :=
  {| Consolidator.col_State := [Some "Texas"; Some "Utah"];
     Consolidator.col_Households := Some [NaN; of_Z 20];
     Consolidator.col_Poverty_Percentage := Some [NaN; NaN];
     Consolidator.col_ALICE_Percentage := Some [NaN; of_Z 30];
     Consolidator.col_Below_ALICE_Threshold_Percentage :=
       Some [NaN; NaN] |}.

(** A file on which [process_single_file] raises. *)
Definition fails (f : Consolidator.excel_file) : bool :=
  match Consolidator.opened f with
  | None => true
  | Some xl =>
      match Consolidator.County_sheet xl, Consolidator.Subcounty_sheet xl with
      | Consolidator.Raises, _ | _, Consolidator.Raises => true
      | _, _ => false
      end
  end.

(** The county rows a file adds to the master table: those of its County
    sheet when the workbook opens and the sheet is read. *)
Definition county_rows_of (today : string) (f : Consolidator.excel_file)
    : list Consolidator.county_row :=
  match Consolidator.opened f with
  | Some xl =>
      match Consolidator.County_sheet xl with
      | Consolidator.Rows df =>
          Consolidator.clean_county_data df
            (Consolidator.extract_state_name (Consolidator.file_name f)) today
      | _ => []
      end
  | None => []
  end.

(** The subcounty rows a file adds: those of its Subcounty sheet when,
    in addition, reading the County sheet did not raise. *)
Definition subcounty_rows_of (today : string) (f : Consolidator.excel_file)
    : list Consolidator.subcounty_row :=
  match Consolidator.opened f with
  | Some xl =>
      match Consolidator.County_sheet xl, Consolidator.Subcounty_sheet xl with
      | Consolidator.Raises, _ => []
      | _, Consolidator.Rows df =>
          Consolidator.clean_subcounty_data df
            (Consolidator.extract_state_name (Consolidator.file_name f)) today
      | _, _ => []
      end
  | None => []
  end.

(** A workbook whose County sheet is read and whose Subcounty sheet
    raises. *)
Definition half_read : Consolidator.excel_file :=
  {| Consolidator.file_name := "2025_ALICE_Texas_Data_Sheet.xlsx";
     Consolidator.opened :=
       Some {| Consolidator.County_sheet :=
                 Consolidator.Rows [row_one_in_32];
               Consolidator.Subcounty_sheet := Consolidator.Raises |} |}.

Definition census_row (population alice_pct poverty_pct : float64)
    : Census.merged_row :=
  {| Census.GEOID := "48201";
     Census.Households := of_Z 20;
     Census.ALICE_Percentage := alice_pct;
     Census.Poverty_Percentage := poverty_pct;
     Census.Total_Population := population |}.

Definition harris : Tiger.county :=
  {| Tiger.GEOID := "48201"; Tiger.NAME := "Harris"; Tiger.STUSPS := "TX";
     Tiger.geometry := [(0, 0); (0, 1); (1, 1)]%Z |}.

Definition los_angeles : Tiger.county :=
  {| Tiger.GEOID := "6037"; Tiger.NAME := "Los Angeles";
     Tiger.STUSPS := "CA"; Tiger.geometry := [(5, 5); (5, 6); (6, 6)]%Z |}.

Definition washington_dc : Tiger.county :=
  {| Tiger.GEOID := "11001"; Tiger.NAME := "District of Columbia";
     Tiger.STUSPS := "DC"; Tiger.geometry := [(8, 8); (8, 9); (9, 9)]%Z |}.

(** The rows of a frame for one region. *)
Definition region (geoid : string) (r : Tiger.choropleth_row) : bool :=
  String.eqb (Tiger.GEOID (Tiger.c_shape r)) geoid.

(** A row of the ALICE mapping table. *)
Definition alice (geo_id2 : option string) (state county : string)
    (households : Z) : Tiger.alice_cols :=
  {| Tiger.State := Some state;
     Tiger.State_Abbr_col := None;
     Tiger.County := Some county;
     Tiger.GEO_id2 := geo_id2;
     Tiger.GEO_display_label := None;
     Tiger.Households := of_Z households;
     Tiger.Poverty_Percentage := Fin (25 # 2);
     Tiger.ALICE_Percentage := Fin (30 # 1);
     Tiger.Below_ALICE_Threshold_Percentage := Fin (85 # 2);
     Tiger.Above_ALICE_Percentage := Fin (115 # 2) |}.

Definition union_north : Tiger.county :=
  {| Tiger.GEOID := "05139"; Tiger.NAME := "Union"; Tiger.STUSPS := "AR";
     Tiger.geometry := [(2, 2); (2, 3); (3, 3)]%Z |}.

Definition union_south : Tiger.county :=
  {| Tiger.GEOID := "05140"; Tiger.NAME := "Union"; Tiger.STUSPS := "AR";
     Tiger.geometry := [(3, 2); (3, 3); (4, 3)]%Z |}.

(** Two rows of the table with the code of Harris County. *)
Definition harris_twice : list Tiger.alice_cols :=
  [ alice (Some "48201") "Texas" "Harris" 100;
    alice (Some "48201.0") "Texas" "Harris" 200 ].

(** A row with the code of Harris County, then a row that names the
    county but carries a code of six characters. *)
Definition harris_then_named : list Tiger.alice_cols :=
  [ alice (Some "48201") "Texas" "Harris" 100;
    alice (Some "123456") "Texas" "HARRIS" 999 ].


(** A stand-in generator to run the mock generation on: the state
    counts the draws, and a draw moves away from the mean by as many
    hundredths of the deviation. *)
Definition counter_seed (n : Z) : nat := Z.to_nat n.

Definition counter_normal (loc scale : Q) (s : nat) : Q * nat :=
  (loc + scale * (inject_Z (Z.of_nat s) / 100), S s).

(** Another stand-in: every draw is the mean. *)
Definition mean_normal (loc scale : Q) (s : unit) : Q * unit := (loc, s).

Definition one_county : list Census.alice_row :=
  [ {| Census.GEO_id2 := Some "6037.0";
       Census.alice_Households := of_Z 1000 |} ].

Definition harris_named : Tiger.alice_row :=
  {| Tiger.cols := alice (Some "123456") "Texas" "HARRIS" 999;
     Tiger.FIPS := "123456" |}.

(** The code the mock generator computes for a row of the ALICE table. *)
Definition mock_code (row : Census.alice_row) : string :=
  Str.zfill 5
    (Str.first (Str.split "." (Str.astype_str (Census.GEO_id2 row)))).

(** The fields of a mock record that are not drawn. *)
Definition undrawn (r : Census.mock_row) : string * Z * float64 :=
  (Census.FIPS r, Census.Total_Housing_Units r,
   Census.Minority_Population_Rate r).

(** What those fields are for a row, from the row alone. *)
Definition undrawn_of (fips : string) (row : Census.alice_row)
    : string * Z * float64 :=
  let households :=
    if notna (Census.alice_Households row) then Census.alice_Households row
    else of_Z 10000 in
  let rural_factor : Q :=
    if Census.ltb households 5000 then 1
    else if Census.ltb households 25000 then 1 # 2 else 1 # 5 in
  (fips,
   match mul households (Fin (115 # 100)) with
   | Fin q => trunc_Q q
   | _ => 0%Z
   end,
   round 1 (Fin ((1 - ((6 # 10) + rural_factor * (2 # 10))) * 100))).

(** A county of the Census answer with the given codes and occupied
    units. *)
Definition api_county (state county : string) (owners renters : Z)
    : Census.api_row :=
  {| Census.state := state;
     Census.county := county;
     Census.api_Total_Population := of_Z 1000;
     Census.Owner_Occupied_Housing := of_Z owners;
     Census.Renter_Occupied_Housing := of_Z renters;
     Census.Bachelors_Degree := of_Z 100;
     Census.Masters_Degree := of_Z 50;
     Census.Professional_Degree := of_Z 10;
     Census.Doctorate_Degree := of_Z 5;
     Census.Age_65_To_74 := of_Z 80;
     Census.Age_75_To_84 := of_Z 40;
     Census.Age_85_Plus := of_Z 10;
     Census.api_White_Alone := of_Z 600;
     Census.Work_From_Home := of_Z 30;
     Census.Total_Commuters := of_Z 400;
     Census.Unemployed := of_Z 20 |}.

(** A row that names Harris County, with a code of six characters and
    no household count. *)
Definition harris_named_no_households : Tiger.alice_row :=
  {| Tiger.cols :=
       {| Tiger.State := Some "Texas";
          Tiger.State_Abbr_col := None;
          Tiger.County := Some "Harris";
          Tiger.GEO_id2 := Some "654321";
          Tiger.GEO_display_label := None;
          Tiger.Households := NaN;
          Tiger.Poverty_Percentage := Fin (10 # 1);
          Tiger.ALICE_Percentage := Fin (20 # 1);
          Tiger.Below_ALICE_Threshold_Percentage := Fin (30 # 1);
          Tiger.Above_ALICE_Percentage := Fin (70 # 1) |};
     Tiger.FIPS := "654321" |}.

End Spec.

(* ================================================================== *)
(** * Part II: properties                                              *)
(* ================================================================== *)

(** ** Strings *)

#[local] Arguments String.append !_ _ / : simpl nomatch.

Section StrFacts.

Lemma zeros_length n : String.length (Str.zeros n) = n.
Proof. induction n; simpl; congruence. Qed.

Lemma append_length (s t : string) :
  String.length (s ++ t) = (String.length s + String.length t)%nat.
Proof. induction s; simpl; congruence. Qed.

(** A string at least as long as the width is returned as it is. *)
Lemma zfill_long w s : (w <= String.length s)%nat -> Str.zfill w s = s.
Proof.
  intros H. unfold Str.zfill.
  destruct (Nat.leb_spec w (String.length s)); [reflexivity | lia].
Qed.

Lemma zfill_length w s :
  String.length (Str.zfill w s) = Nat.max w (String.length s).
Proof.
  unfold Str.zfill.
  destruct (Nat.leb_spec w (String.length s)) as [Hle | Hlt]; [lia |].
  destruct s as [| ch r]; simpl in *.
  - rewrite zeros_length. lia.
  - destruct (Str.is_sign ch); simpl;
      rewrite append_length, zeros_length; simpl; lia.
Qed.

Lemma split_nonempty sep s : Str.split sep s <> [].
Proof.
  destruct s as [| ch r]; simpl; [discriminate |].
  destruct (Ascii.eqb ch sep); [discriminate |].
  destruct (Str.split sep r); discriminate.
Qed.

(** The first piece of a split never contains the separator. *)
Lemma first_split_clean sep s :
  Str.contains sep (Str.first (Str.split sep s)) = false.
Proof.
  induction s as [| ch r IH]; simpl; [reflexivity |].
  destruct (Ascii.eqb ch sep) eqn:E; simpl; [reflexivity |].
  destruct (Str.split sep r) as [| w ws] eqn:Er; simpl in *.
  - rewrite E. reflexivity.
  - rewrite E, IH. reflexivity.
Qed.

(** A string without the separator is its own first piece. *)
Lemma first_split_id sep s :
  Str.contains sep s = false -> Str.first (Str.split sep s) = s.
Proof.
  induction s as [| ch r IH]; simpl; [reflexivity |].
  intros H. apply orb_false_iff in H as [E Hr]. rewrite E.
  specialize (IH Hr).
  destruct (Str.split sep r) as [| w ws] eqn:Er; simpl in *.
  - subst r. reflexivity.
  - congruence.
Qed.

Lemma contains_app ch s t :
  Str.contains ch (s ++ t) = Str.contains ch s || Str.contains ch t.
Proof.
  induction s as [| d r IH]; simpl; [reflexivity |].
  rewrite IH. apply orb_assoc.
Qed.

Lemma contains_zeros n : Str.contains "." (Str.zeros n) = false.
Proof. induction n; simpl; auto. Qed.

Lemma zfill_clean w s :
  Str.contains "." s = false -> Str.contains "." (Str.zfill w s) = false.
Proof.
  intros H. unfold Str.zfill.
  destruct (w <=? String.length s)%nat; [exact H |].
  destruct s as [| ch r]; simpl in *.
  - apply contains_zeros.
  - apply orb_false_iff in H as [E Hr].
    destruct (Str.is_sign ch); simpl;
      rewrite ?E, contains_app, contains_zeros; simpl; rewrite ?E, ?Hr;
      reflexivity.
Qed.

End StrFacts.

(** ** Identifier clean-up *)

Import Tiger.

Section Canonicalization.

Lemma clean_FIPS_length x : (5 <= String.length (clean_FIPS x))%nat.
Proof. unfold clean_FIPS. rewrite zfill_length. lia. Qed.

Lemma clean_FIPS_clean x : Str.contains "." (clean_FIPS x) = false.
Proof. unfold clean_FIPS. apply zfill_clean, first_split_clean. Qed.

(** Cleaning a cleaned code changes nothing, valid or not. *)
Lemma clean_FIPS_fixpoint x :
  clean_FIPS (Some (clean_FIPS x)) = clean_FIPS x.
Proof.
  unfold clean_FIPS at 1. simpl.
  rewrite first_split_id by apply clean_FIPS_clean.
  apply zfill_long, clean_FIPS_length.
Qed.

(** The length test is the whole validity test: a row goes to
    [missing_fips_alice] exactly when the text before the first point is
    longer than five characters. *)
Lemma canonicalize_None x :
  canonicalize x = None <->
  (5 < String.length (Str.first (Str.split "." (Str.astype_str x))))%nat.
Proof.
  unfold canonicalize, valid_fips, clean_FIPS.
  rewrite zfill_length.
  destruct (Nat.eqb_spec
    (Nat.max 5 (String.length (Str.first (Str.split "." (Str.astype_str x)))))
    5); split; intros H; try discriminate; try reflexivity; lia.
Qed.

End Canonicalization.

(** C9. Canonicalization is idempotent: an identifier that canonicalizes
    to a valid code [c] is sent to [c], and [c] canonicalizes to itself. *)
Theorem canonicalize_idempotent (x : option string) (c : string) :
  canonicalize x = Some c -> canonicalize (Some c) = Some c.
Proof.
  unfold canonicalize. intros H.
  destruct (valid_fips (clean_FIPS x)) eqn:V; [| discriminate].
  injection H as <-.
  rewrite clean_FIPS_fixpoint, V. reflexivity.
Qed.

Lemma canonicalize_idempotent_witness :
  canonicalize (Some "6037.0") = Some "06037" /\
  canonicalize (Some "06037") = Some "06037".
Proof.
  split; [reflexivity |].
  apply (canonicalize_idempotent (Some "6037.0") "06037"). reflexivity.
Defined.

(** C3. The identifier clean-up at a blank cell and at a cell of letters:
    both come out five characters long and are kept as valid codes although
    neither is made of digits only. *)
Theorem canonicalize_accepts_non_digits :
  canonicalize None = Some "00nan" /\
  Str.all_digits "00nan" = false /\
  canonicalize (Some "TBD") = Some "00TBD" /\
  Str.all_digits "00TBD" = false.
Proof. repeat split; reflexivity. Qed.

(** ** float64 arithmetic *)

Section FloatFacts.

Local Open Scope Q_scope.

Lemma is_zero_inject z : is_zero (inject_Z z) = true <-> z = 0%Z.
Proof.
  unfold is_zero. rewrite Qeq_bool_iff. unfold Qeq. simpl. lia.
Qed.

Lemma is_zero_pow10 d : is_zero (inject_Z (10 ^ Z.of_nat d)) = false.
Proof.
  destruct (is_zero (inject_Z (10 ^ Z.of_nat d))) eqn:E; [| reflexivity].
  apply is_zero_inject in E.
  pose proof (Z.pow_pos_nonneg 10 (Z.of_nat d)). lia.
Qed.

Lemma nonneg_pow10 d : nonneg (inject_Z (10 ^ Z.of_nat d)) = true.
Proof.
  unfold nonneg. apply Qle_bool_iff. unfold Qle. simpl.
  pose proof (Z.pow_pos_nonneg 10 (Z.of_nat d)). lia.
Qed.

(** Rounding neither creates nor removes a null. *)
Lemma round_isna d x : isna (round d x) = isna x.
Proof.
  destruct d as [| d']; [destruct x; reflexivity |].
  unfold round, pow10, of_Z.
  destruct x; simpl; rewrite ?is_zero_pow10, ?nonneg_pow10; simpl;
    rewrite ?is_zero_pow10, ?nonneg_pow10; reflexivity.
Qed.



(** [rint] returns a nearest integer, the even one on a tie. *)
Lemma rint_Q_nearest q : Spec.nearest_ties_even (rint_Q q) q.
Proof.
  unfold Spec.nearest_ties_even, rint_Q.
  pose proof (Qfloor_le q) as Hlo. pose proof (Qlt_floor q) as Hhi.
  rewrite inject_Z_plus in Hhi. change (inject_Z 1) with 1 in Hhi.
  destruct (Qcompare (q - inject_Z (Qfloor q)) (1 # 2)) eqn:C.
  - apply Qeq_alt in C.
    assert (T : forall k, inject_Z k - q == 1 # 2 \/
                          inject_Z k - q == - (1 # 2) ->
                          Qabs (inject_Z k - q) <= 1 # 2).
    { intros k [E | E]; rewrite E; apply Qle_bool_iff; reflexivity. }
    destruct (Z.even (Qfloor q)) eqn:Ev.
    + split; [apply T; right; lra | auto].
    + split.
      * apply T. left. rewrite inject_Z_plus. change (inject_Z 1) with 1.
        lra.
      * intros _. rewrite Z.even_add, Ev. reflexivity.
  - apply Qlt_alt in C. split.
    + apply Qabs_Qle_condition. split; lra.
    + intros E. exfalso.
      assert (A : Qabs (inject_Z (Qfloor q) - q) == q - inject_Z (Qfloor q)).
      { rewrite Qabs_neg by lra. ring. }
      rewrite A in E. lra.
  - apply Qgt_alt in C. rewrite inject_Z_plus. change (inject_Z 1) with 1.
    split.
    + apply Qabs_Qle_condition. split; lra.
    + intros E. exfalso.
      assert (A : Qabs (inject_Z (Qfloor q) + 1 - q)
                  == inject_Z (Qfloor q) + 1 - q).
      { apply Qabs_pos. lra. }
      rewrite A in E. lra.
Qed.

(** On a finite value [round] scales, takes [rint], and scales back. *)
Lemma round_Fin (d : nat) (x : Q) :
  round (S d) (Fin x) =
  Fin (inject_Z (rint_Q (x * inject_Z (10 ^ Z.of_nat (S d))))
       / inject_Z (10 ^ Z.of_nat (S d))).
Proof.
  unfold round, pow10, of_Z, mul, rint, div, of_Z.
  rewrite is_zero_pow10. reflexivity.
Qed.

Lemma percentage_Fin (x : Q) (h : Z) :
  h <> 0%Z ->
  Consolidator.percentage (Fin x) (of_Z h) =
  Fin (inject_Z (rint_Q (x / inject_Z h * 100 * 100)) / 100).
Proof.
  intros Hh. unfold Consolidator.percentage, of_Z at 1 2. unfold div.
  destruct (is_zero (inject_Z h)) eqn:E;
    [apply is_zero_inject in E; contradiction |].
  unfold mul. rewrite round_Fin. reflexivity.
Qed.

End FloatFacts.

(** ** Derived percentages *)

Section Percentages.

Local Open Scope Q_scope.







End Percentages.



(** ** Rounding *)

Section Binary64Facts.

Import SpecFloat.

Local Open Scope Q_scope.







(** The rounding sees the binary64 value, not the exact quotient: 23
    households out of 160 are 14.375 percent, but the scaled binary64 value
    lies below 1437.5, so 14.37 is stored, where the even neighbour of the
    exact tie is 14.38.  One household out of 32 is 3.125 in binary64 as
    well, stored as 3.12; 50 persons at 1 percent are 0.5, stored as 0. *)
Example binary64_rounds_the_stored_value :
  Consolidator.Poverty_Percentage_binary64 Spec.row_23_in_160
    = Binary64.div (Binary64.of_int 1437) (Binary64.of_int 100) /\
  Binary64.value
    (Binary64.mul
       (Binary64.mul (Binary64.div (Binary64.of_int 23)
                                   (Binary64.of_int 160))
                     (Binary64.of_int 100))
       (Binary64.of_int 100)) < 2875 # 2 /\
  inject_Z 23 / inject_Z 160 * 100 * 100 == 2875 # 2 /\
  Consolidator.ALICE_Percentage_binary64 Spec.row_23_in_160
    = Binary64.div (Binary64.of_int 3063) (Binary64.of_int 100) /\
  Consolidator.Above_ALICE_Percentage_binary64 Spec.row_23_in_160
    = Binary64.of_int 55 /\
  Consolidator.Poverty_Percentage_binary64 Spec.row_one_in_32
    = Binary64.div (Binary64.of_int 312) (Binary64.of_int 100) /\
  Census.derived_population_binary64 (Binary64.of_int 50)
                                     (Binary64.of_int 1)
    = Binary64.of_int 0.
Proof. repeat split; vm_compute; reflexivity. Qed.

End Binary64Facts.


(** ** Summary statistics *)

Section Means.

Local Open Scope Q_scope.

#[local] Instance equiv_refl : Reflexive F64.equiv.
Proof. intros [| | | q]; simpl; auto. reflexivity. Qed.

#[local] Instance equiv_sym : Symmetric F64.equiv.
Proof.
  intros [| | | a] [| | | b]; simpl; auto. intros E. symmetry. exact E.
Qed.

#[local] Instance equiv_trans : Transitive F64.equiv.
Proof.
  intros [| | | a] [| | | b] [| | | d]; simpl; auto; try tauto.
  intros E1 E2. rewrite E1. exact E2.
Qed.

Lemma add_equiv_l x x' y : F64.equiv x x' -> F64.equiv (add x y) (add x' y).
Proof.
  destruct x, x'; simpl; try tauto; intros E; destruct y; simpl; auto.
  rewrite E. reflexivity.
Qed.

Lemma add_zero_r x : F64.equiv (add x (of_Z 0)) x.
Proof. destruct x; simpl; auto. ring. Qed.

Lemma div_equiv_l x x' (n : Z) :
  F64.equiv x x' -> F64.equiv (div x (of_Z n)) (div x' (of_Z n)).
Proof.
  destruct x as [| | | a], x' as [| | | b]; simpl; try tauto;
    try (intros _; apply equiv_refl).
  intros E. destruct (is_zero (inject_Z n)).
  - assert (Z : is_zero a = is_zero b).
    { unfold is_zero. destruct (Qeq_bool a 0) eqn:A, (Qeq_bool b 0) eqn:B;
        try reflexivity; exfalso.
      - apply Qeq_bool_iff in A. rewrite E in A.
        apply Qeq_bool_iff in A. congruence.
      - apply Qeq_bool_iff in B. rewrite <- E in B.
        apply Qeq_bool_iff in B. congruence. }
    assert (N : nonneg a = nonneg b).
    { unfold nonneg. destruct (Qle_bool 0 a) eqn:A, (Qle_bool 0 b) eqn:B;
        try reflexivity; exfalso.
      - apply Qle_bool_iff in A. rewrite E in A.
        apply Qle_bool_iff in A. congruence.
      - apply Qle_bool_iff in B. rewrite <- E in B.
        apply Qle_bool_iff in B. congruence. }
    rewrite Z, N. apply equiv_refl.
  - simpl. rewrite E. reflexivity.
Qed.

Import Series.

Lemma fold_equiv s : forall acc acc',
  F64.equiv acc acc' ->
  F64.equiv (fold_left step s acc) (fold_left step s acc').
Proof.
  induction s as [| x s IH]; intros acc acc' E; simpl; [exact E |].
  apply IH, add_equiv_l, E.
Qed.

(** Null cells contribute nothing to a sum. *)
Lemma fold_skips_nulls s : forall acc,
  F64.equiv (fold_left step s acc) (fold_left step (List.filter notna s) acc).
Proof.
  induction s as [| x s IH]; intros acc; simpl; [apply equiv_refl |].
  destruct x; simpl; try apply IH.
  transitivity (fold_left step s acc); [| apply IH].
  apply fold_equiv, add_zero_r.
Qed.

Lemma sum_skips_nulls s :
  F64.equiv (Series.sum s) (Series.sum (List.filter notna s)).
Proof. apply fold_skips_nulls. Qed.

Lemma count_filter s : Series.count (List.filter notna s) = Series.count s.
Proof.
  unfold Series.count. induction s as [| x s IH]; simpl; [reflexivity |].
  destruct (notna x) eqn:E; simpl; rewrite ?E; simpl; congruence.
Qed.

Lemma mean_skips_nulls s :
  F64.equiv (Series.mean s) (Series.mean (List.filter notna s)).
Proof.
  unfold Series.mean. rewrite count_filter.
  destruct (0 <? Series.count s)%nat; [| exact I].
  apply div_equiv_l, sum_skips_nulls.
Qed.

Lemma sum_all_null s : forall acc,
  Series.count s = 0%nat -> fold_left step s acc = step acc NaN \/ s = [].
Proof.
  unfold Series.count.
  induction s as [| x s IH]; intros acc Hc; [right; reflexivity |].
  left. destruct x; simpl in Hc; try discriminate. simpl.
  destruct (IH (step acc NaN) Hc) as [E | ->]; [| reflexivity].
  rewrite E. unfold step. simpl.
  destruct acc; simpl; try reflexivity. f_equal.
  unfold Qplus. simpl. rewrite !Z.mul_1_r, !Z.add_0_r, !Pos.mul_1_r.
  reflexivity.
Qed.

(** The sum of a column without a non-null cell is zero. *)
Lemma sum_no_values s : Series.count s = 0%nat -> Series.sum s = of_Z 0.
Proof.
  intros Hc. unfold Series.sum.
  destruct (sum_all_null s (of_Z 0) Hc) as [E | ->]; [| reflexivity].
  exact E.
Qed.

Lemma mean_no_values s : Series.count s = 0%nat -> Series.mean s = NaN.
Proof. intros Hc. unfold Series.mean. rewrite Hc. reflexivity. Qed.

Lemma sum_Fin qs : forall acc,
  fold_left step (map Fin qs) (Fin acc) = Fin (fold_left Qplus qs acc).
Proof.
  induction qs as [| q qs IH]; intros acc; simpl; [reflexivity | apply IH].
Qed.

Lemma count_Fin qs : Series.count (map Fin qs) = length qs.
Proof.
  unfold Series.count. induction qs; simpl; [reflexivity | congruence].
Qed.

(** On finite values the mean is the sum over the number of values. *)
Lemma mean_Fin q qs :
  Series.mean (map Fin (q :: qs)) =
  Fin (fold_left Qplus (q :: qs) 0
       / inject_Z (Z.of_nat (length (q :: qs)))).
Proof.
  unfold Series.mean. rewrite count_Fin.
  change (0 <? length (q :: qs))%nat with true. cbv iota.
  unfold Series.sum. unfold of_Z at 1. rewrite sum_Fin.
  unfold div, of_Z.
  destruct (is_zero (inject_Z (Z.of_nat (length (q :: qs))))) eqn:E;
    [| reflexivity].
  apply is_zero_inject in E. simpl in E. lia.
Qed.

End Means.

(** A column that does not exist is another matter: the consolidator
    reports zero for it. *)
Lemma mean_of_absent_column : Consolidator.mean_if_present None = of_Z 0.
Proof. reflexivity. Qed.

Section ReportedMeans.

Local Open Scope Q_scope.

Lemma filter_notna_cells (cells : list (option Q)) :
  List.filter notna (map Spec.cell cells) = map Fin (Spec.non_null cells).
Proof.
  induction cells as [| [q |] rest IH]; simpl; [reflexivity | | exact IH].
  rewrite IH. reflexivity.
Qed.

Lemma count_cells (cells : list (option Q)) :
  Series.count (map Spec.cell cells) = length (Spec.non_null cells).
Proof.
  unfold Series.count. rewrite filter_notna_cells. apply length_map.
Qed.

(** The mean of a column of values and nulls is the arithmetic mean of
    the values. *)
Lemma mean_cells (cells : list (option Q)) (q : Q) (qs : list Q) :
  Spec.non_null cells = q :: qs ->
  F64.equiv (Series.mean (map Spec.cell cells))
            (Fin (Spec.arithmetic_mean (q :: qs))).
Proof.
  intros E.
  eapply equiv_trans; [apply mean_skips_nulls |].
  rewrite filter_notna_cells, E, mean_Fin. apply equiv_refl.
Qed.

End ReportedMeans.

(** C8 (amended). Each mean the two summary functions report for a metric
    column that exists is the mean of that column, and the mean of a
    column is taken over its non-null cells only: on a column of values
    and nulls it is the sum of the values over their number, null cells
    change nothing, and a column without a non-null cell has the mean NaN,
    which is not zero, while its sum is zero.  For a metric column the
    master table does not have, the consolidator reports the mean 0. *)
Theorem mean_over_non_null_only :
  (forall (master_county : Consolidator.master_frame)
          (s : Consolidator.county_stats),
      Consolidator.create_summary_statistics master_county = Some s ->
      let reported (column : option (list float64)) (average : float64) :=
        match column with
        | Some col => average = Series.mean col
        | None => average = of_Z 0
        end in
      reported (Consolidator.col_Poverty_Percentage master_county)
               (Consolidator.avg_poverty_percentage s) /\
      reported (Consolidator.col_ALICE_Percentage master_county)
               (Consolidator.avg_alice_percentage s) /\
      reported (Consolidator.col_Below_ALICE_Threshold_Percentage
                  master_county)
               (Consolidator.avg_below_alice_threshold s)) /\
  (forall gdf : list choropleth_row,
      avg_alice_percentage (create_summary_stats gdf)
      = Series.mean (map (fun r => ALICE_Percentage (c_attrs r)) gdf) /\
      avg_poverty_percentage (create_summary_stats gdf)
      = Series.mean (map (fun r => Poverty_Percentage (c_attrs r)) gdf)) /\
  (forall cells : list (option Q),
      let col := map Spec.cell cells in
      match Spec.non_null cells with
      | [] =>
          Series.mean col = NaN /\
          F64.eqb (Series.mean col) (of_Z 0) = false /\
          Series.sum col = of_Z 0
      | values =>
          F64.equiv (Series.mean col) (Fin (Spec.arithmetic_mean values))
      end) /\
  (forall col : list float64,
      F64.equiv (Series.mean col) (Series.mean (List.filter notna col)) /\
      (Series.count col = 0%nat ->
         Series.mean col = NaN /\
         F64.eqb (Series.mean col) (of_Z 0) = false /\
         Series.sum col = of_Z 0)).
Proof.
  assert (N : forall col, Series.count col = 0%nat ->
                Series.mean col = NaN /\
                F64.eqb (Series.mean col) (of_Z 0) = false /\
                Series.sum col = of_Z 0).
  { intros col Hc. rewrite (mean_no_values col Hc).
    repeat split; try reflexivity. apply sum_no_values, Hc. }
  split; [| split; [| split]].
  - intros master_county s Hs. cbv zeta.
    unfold Consolidator.create_summary_statistics in Hs.
    destruct (Consolidator.col_State master_county); [discriminate Hs |].
    injection Hs as <-. cbn.
    repeat split;
      match goal with
      | |- match ?c with _ => _ end => destruct c; reflexivity
      end.
  - intros gdf. split; reflexivity.
  - intros cells. cbv zeta.
    destruct (Spec.non_null cells) as [| q qs] eqn:E.
    + apply N. rewrite count_cells, E. reflexivity.
    + apply mean_cells, E.
  - intros col. split; [apply mean_skips_nulls | apply N].
Qed.

Lemma mean_over_non_null_only_witness :
  exists s : Consolidator.county_stats,
    Consolidator.create_summary_statistics Spec.frame_with_nulls = Some s /\
    Consolidator.avg_poverty_percentage s = Series.mean [NaN; NaN] /\
    Consolidator.avg_alice_percentage s = Series.mean [NaN; of_Z 30] /\
    Consolidator.avg_below_alice_threshold s = Series.mean [NaN; NaN].
Proof.
  eexists. split; [reflexivity |].
  apply (proj1 mean_over_non_null_only Spec.frame_with_nulls _ eq_refl).
Defined.

(** C8, as stated, fails for a metric without a column.  A master table
    built from sheets without household columns has no percentage column,
    so no value of the metric at all: the reported means are 0, not
    null.  Where the column exists and every cell of it is null, the mean
    is null. *)
Lemma absent_column_mean_is_zero :
  (exists s : Consolidator.county_stats,
      Consolidator.create_summary_statistics Spec.frame_without_percentages
      = Some s /\
      Consolidator.avg_poverty_percentage s = of_Z 0 /\
      Consolidator.avg_alice_percentage s = of_Z 0 /\
      Consolidator.avg_below_alice_threshold s = of_Z 0 /\
      isna (Consolidator.avg_poverty_percentage s) = false) /\
  (exists s : Consolidator.county_stats,
      Consolidator.create_summary_statistics Spec.frame_with_nulls
      = Some s /\
      Consolidator.avg_poverty_percentage s = NaN).
Proof. split; eexists; repeat split. Qed.

(** ** The primary join *)

Section MergeFacts.

Variable right : list alice_row.

Lemma merge_cons c left :
  merge (c :: left) right = (rows_of right c ++ merge left right)%list.
Proof. reflexivity. Qed.

Lemma lookup_right_filter c :
  lookup_right c right
  = List.filter (fun a => String.eqb (FIPS a) (GEOID c)) right.
Proof.
  induction right as [| a rest IH]; simpl; [reflexivity |].
  rewrite (String.eqb_sym (FIPS a)), IH. reflexivity.
Qed.

Lemma rows_of_length c :
  length (rows_of right c) = Nat.max 1 (length (lookup_right c right)).
Proof.
  unfold Tiger.rows_of. destruct (lookup_right c right) as [| a hits];
    [reflexivity |].
  rewrite length_map. simpl. reflexivity.
Qed.

Lemma rows_of_shape c :
  map shape (rows_of right c) = repeat c (length (rows_of right c)).
Proof.
  unfold Tiger.rows_of. destruct (lookup_right c right) as [| a hits];
    [reflexivity |].
  generalize (a :: hits). intros l. induction l; simpl; congruence.
Qed.

Lemma merge_length left :
  length (merge left right)
  = list_sum (map (fun c => Nat.max 1 (length (lookup_right c right))) left).
Proof.
  induction left as [| c left IH]; [reflexivity |].
  rewrite merge_cons, length_app, rows_of_length, IH. reflexivity.
Qed.

Lemma merge_length_ge left : length left <= length (merge left right).
Proof.
  rewrite merge_length. induction left as [| c left IH]; simpl; lia.
Qed.

(** With at most one match per county the join is row for row. *)
Lemma merge_one_to_one left :
  Forall (fun c => length (lookup_right c right) <= 1) left ->
  map shape (merge left right) = left.
Proof.
  induction 1 as [| c left Hc _ IH]; [reflexivity |].
  rewrite merge_cons, map_app, IH. unfold Tiger.rows_of.
  destruct (lookup_right c right) as [| a [| b hits]];
    simpl in *; [reflexivity | reflexivity | lia].
Qed.

Lemma merge_covers left c : In c left -> In c (map shape (merge left right)).
Proof.
  induction left as [| d left IH]; intros Hin; [contradiction |].
  rewrite merge_cons, map_app. apply in_or_app.
  destruct Hin as [-> | Hin]; [left | right; auto].
  rewrite rows_of_shape. rewrite rows_of_length.
  destruct (Nat.max 1 (length (lookup_right c right))) eqn:E; [lia |].
  left. reflexivity.
Qed.

(** A row of the join is the unmatched row of its county or carries one
    of the county's matches. *)
Lemma merge_row left m :
  In m (merge left right) ->
  (lookup_right (shape m) right = [] /\ m = unmatched (shape m)) \/
  (exists a, In a (lookup_right (shape m) right) /\ m = joined (shape m) a).
Proof.
  induction left as [| c left IH]; intros Hin; [contradiction |].
  rewrite merge_cons in Hin. apply in_app_or in Hin as [Hin | Hin]; auto.
  unfold Tiger.rows_of in Hin.
  destruct (lookup_right c right) as [| a hits] eqn:E.
  - destruct Hin as [<- | []]. left. simpl. auto.
  - apply in_map_iff in Hin as (b & <- & Hb). right. simpl.
    exists b. rewrite E. auto.
Qed.

Lemma filter_rows_other g c :
  GEOID c <> g -> List.filter (mask g) (rows_of right c) = [].
Proof.
  intros Hne. unfold Tiger.rows_of, mask.
  apply String.eqb_neq in Hne.
  destruct (lookup_right c right) as [| a hits]; simpl; rewrite ?Hne;
    [reflexivity |].
  induction hits as [| b hits IH]; simpl; rewrite ?Hne; auto.
Qed.

Lemma filter_rows_self c :
  List.filter (mask (GEOID c)) (rows_of right c) = rows_of right c.
Proof.
  unfold Tiger.rows_of, mask.
  destruct (lookup_right c right) as [| a hits]; simpl;
    rewrite ?String.eqb_refl; [reflexivity |].
  f_equal. induction hits as [| b hits IH]; simpl;
    rewrite ?String.eqb_refl; congruence.
Qed.

Lemma filter_merge_none g left :
  ~ In g (map GEOID left) -> List.filter (mask g) (merge left right) = [].
Proof.
  induction left as [| c left IH]; intros Hn; [reflexivity |].
  rewrite merge_cons, List.filter_app.
  rewrite filter_rows_other, IH; simpl in *; intuition.
Qed.

(** When the county codes are distinct, the rows of a region are the
    rows of its county. *)
Lemma filter_merge_region left c :
  List.NoDup (map GEOID left) -> In c left ->
  List.filter (mask (GEOID c)) (merge left right) = rows_of right c.
Proof.
  induction left as [| d left IH]; intros Hnd Hin; [contradiction |].
  simpl in Hnd. apply NoDup_cons_iff in Hnd as [Hd Hnd].
  rewrite merge_cons, List.filter_app.
  destruct Hin as [-> | Hin].
  - rewrite filter_rows_self, filter_merge_none by exact Hd.
    apply app_nil_r.
  - assert (GEOID d <> GEOID c).
    { intros E. apply Hd. rewrite E. apply in_map, Hin. }
    rewrite filter_rows_other by assumption. simpl. auto.
Qed.

End MergeFacts.

(** ** The secondary join *)

Section SecondaryJoinFacts.

Variable counties_gdf : list county.

Lemma update_masked_shape g a l :
  map shape (update_masked g a l) = map shape l.
Proof.
  unfold update_masked. rewrite map_map. apply map_ext.
  intros m. destruct (mask g m); reflexivity.
Qed.

Lemma secondary_join_row_shape l a :
  map shape (secondary_join_row counties_gdf l a) = map shape l.
Proof.
  unfold secondary_join_row.
  destruct (fallback_target counties_gdf a);
    [apply update_masked_shape | reflexivity].
Qed.

(** The secondary join keeps the rows' counties, in place and in number. *)
Lemma secondary_join_shape missing : forall l,
  map shape (secondary_join counties_gdf l missing) = map shape l.
Proof.
  unfold secondary_join.
  induction missing as [| a missing IH]; intros l; simpl; [reflexivity |].
  rewrite IH. apply secondary_join_row_shape.
Qed.

Lemma update_masked_other g g' a l :
  g' <> g ->
  List.filter (mask g) (update_masked g' a l) = List.filter (mask g) l.
Proof.
  intros Hne. unfold update_masked.
  induction l as [| m l IH]; simpl; [reflexivity |].
  destruct (mask g' m) eqn:E'; [| rewrite IH; reflexivity].
  assert (Em : mask g m = false).
  { unfold mask in *. apply String.eqb_eq in E'.
    apply String.eqb_neq. congruence. }
  unfold mask at 1. simpl. fold (mask g m). rewrite Em. exact IH.
Qed.

(** A region no row of the loop settles on keeps its rows. *)
Lemma secondary_join_other g missing : forall l,
  (forall a, In a missing -> fallback_target counties_gdf a <> Some g) ->
  List.filter (mask g) (secondary_join counties_gdf l missing)
  = List.filter (mask g) l.
Proof.
  unfold secondary_join.
  induction missing as [| a missing IH]; intros l Hno; simpl;
    [reflexivity |].
  rewrite IH by (intros b Hb; apply Hno; right; exact Hb).
  unfold secondary_join_row.
  destruct (fallback_target counties_gdf a) as [g' |] eqn:E;
    [| reflexivity].
  apply update_masked_other. intros ->. apply (Hno a); [left |]; auto.
Qed.

Lemma merged_gdf_unfold shapefile csv :
  merged_gdf shapefile csv
  = secondary_join (map zfill_GEOID shapefile)
      (merge (map zfill_GEOID shapefile)
         (List.filter (fun a => valid_fips (FIPS a)) (load_alice_data csv)))
      (List.filter (fun a => negb (valid_fips (FIPS a)))
         (load_alice_data csv)).
Proof.
  unfold merged_gdf.
  destruct (List.filter (fun a => negb (valid_fips (FIPS a)))
              (load_alice_data csv)); reflexivity.
Qed.

Lemma filter_drop_FIPS g l :
  List.filter (Spec.region g) (map drop_FIPS l)
  = map drop_FIPS (List.filter (mask g) l).
Proof.
  induction l as [| m l IH]; simpl; [reflexivity |].
  unfold Spec.region at 1. simpl. fold (mask g m).
  destruct (mask g m); simpl; congruence.
Qed.

Lemma filter_In_region g c l (m : merged_row) :
  In m l -> shape m = c -> GEOID c = g -> In m (List.filter (mask g) l).
Proof.
  intros Hin Hs Hg. apply filter_In. split; [exact Hin |].
  unfold mask. rewrite Hs, Hg. apply String.eqb_refl.
Qed.

End SecondaryJoinFacts.

(** ** Worked examples *)

Example percentages_of_1000 :
  let out :=
    Consolidator.clean_county_row "Texas" "2025-01-01"
      (Spec.sheet_row (Some 1000%Z) (Some 150%Z) (Some 300%Z) (Some 550%Z)) in
  F64.equiv (Consolidator.Poverty_Percentage out) (of_Z 15) /\
  F64.equiv (Consolidator.ALICE_Percentage out) (of_Z 30) /\
  F64.equiv (Consolidator.Below_ALICE_Threshold_Percentage out) (of_Z 45).
Proof. repeat split; reflexivity. Qed.

(** A code stored as a float matches its county in the primary join. *)
Example exact_match :
  canonicalize (Some "6037.0") = Some "06037" /\
  map (fun m => (GEOID (shape m), FIPS_y m, Households (attrs m)))
      (merged_gdf [Spec.los_angeles]
         [Spec.alice (Some "6037.0") "California" "Los Angeles" 10])
  = [("06037", Some "06037", of_Z 10)].
Proof. split; reflexivity. Qed.

(** A row with a code that is too long is matched by state and name. *)
Example fallback_match :
  map (fun m => (GEOID (shape m), FIPS_y m, Households (attrs m)))
      (merged_gdf [Spec.harris]
         [Spec.alice (Some "123456") "Texas" "HARRIS" 999])
  = [("48201", None, of_Z 999)].
Proof. reflexivity. Qed.

(** Two counties with the same state and name: the row settles on
    neither and both stay without attributes. *)
Example ambiguous_fallback :
  map (fun m => (GEOID (shape m), attrs m))
      (merged_gdf [Spec.union_north; Spec.union_south]
         [Spec.alice (Some "unknown") "Arkansas" "Union" 40])
  = [("05139", null_cols); ("05140", null_cols)].
Proof. reflexivity. Qed.

(** ** Boundary coverage *)

(** C2 (amended). The output has one row for a boundary that matches no
    valid attribute record or one, and one row per match for a boundary that
    matches several: its length is the sum over the boundaries of
    max(1, matches), at least the number of boundaries, and equal to it,
    row for row, when no boundary matches more than one record.  No
    boundary is dropped.  A boundary without a match that no fallback row
    settles on has all its attribute fields null. *)
Theorem boundary_coverage (shapefile : list county) (csv : list alice_cols) :
  let counties_gdf := map zfill_GEOID shapefile in
  let alice_df := load_alice_data csv in
  let valid := List.filter (fun a => valid_fips (FIPS a)) alice_df in
  let missing := List.filter (fun a => negb (valid_fips (FIPS a))) alice_df in
  let out := create_county_choropleth_data shapefile csv in
  length out
    = list_sum (map (fun c => Nat.max 1 (length (lookup_right c valid)))
                    counties_gdf) /\
  length shapefile <= length out /\
  (Forall (fun c => length (lookup_right c valid) <= 1) counties_gdf ->
     map c_shape out = counties_gdf /\ length out = length shapefile) /\
  (forall c, In c counties_gdf -> In c (map c_shape out)) /\
  (forall c r,
     lookup_right c valid = [] ->
     (forall a, In a missing ->
                fallback_target counties_gdf a <> Some (GEOID c)) ->
     In r out -> c_shape r = c -> c_attrs r = null_cols).
Proof.
  cbv zeta. unfold create_county_choropleth_data.
  rewrite merged_gdf_unfold.
  set (counties_gdf := map zfill_GEOID shapefile).
  set (valid := List.filter (fun a => valid_fips (FIPS a)) _).
  set (missing := List.filter (fun a => negb (valid_fips (FIPS a))) _).
  assert (Hshape : map c_shape
            (map drop_FIPS
               (secondary_join counties_gdf (merge counties_gdf valid) missing))
          = map shape (merge counties_gdf valid)).
  { rewrite map_map. change (fun x => c_shape (drop_FIPS x)) with shape.
    apply secondary_join_shape. }
  assert (Hlen : length
            (map drop_FIPS
               (secondary_join counties_gdf (merge counties_gdf valid) missing))
          = length (merge counties_gdf valid)).
  { rewrite <- (length_map c_shape), Hshape. apply length_map. }
  repeat split.
  - rewrite Hlen. apply merge_length.
  - rewrite Hlen. pose proof (merge_length_ge valid counties_gdf) as G.
    unfold counties_gdf in G at 1. rewrite length_map in G. exact G.
  - rewrite Hshape. apply merge_one_to_one, H.
  - rewrite <- (length_map c_shape), Hshape, merge_one_to_one by exact H.
    apply length_map.
  - intros c Hc. rewrite Hshape. apply merge_covers, Hc.
  - intros c r Hnone Hno Hr Hs.
    apply in_map_iff in Hr as (m & <- & Hm). simpl in Hs. simpl.
    pose proof (filter_In_region (GEOID c) c _ m Hm Hs eq_refl) as Hf.
    rewrite secondary_join_other in Hf by exact Hno.
    apply filter_In in Hf as [Hf _].
    apply merge_row in Hf as [[_ ->] | (a & Ha & _)]; [reflexivity |].
    rewrite Hs, Hnone in Ha. contradiction.
Qed.

Lemma boundary_coverage_witness :
  map c_shape
    (create_county_choropleth_data [Spec.harris; Spec.los_angeles]
       [Spec.alice (Some "6037.0") "California" "Los Angeles" 10])
  = map zfill_GEOID [Spec.harris; Spec.los_angeles] /\
  length
    (create_county_choropleth_data [Spec.harris; Spec.los_angeles]
       [Spec.alice (Some "6037.0") "California" "Los Angeles" 10])
  = length [Spec.harris; Spec.los_angeles].
Proof.
  apply (proj1 (proj2 (proj2
    (boundary_coverage [Spec.harris; Spec.los_angeles]
       [Spec.alice (Some "6037.0") "California" "Los Angeles" 10])))).
  repeat constructor.
Defined.

(** C2, as stated, fails: with two attribute rows carrying the code of the
    only boundary, the output has two rows for one boundary. *)
Lemma boundary_row_duplicated :
  length (create_county_choropleth_data [Spec.harris] Spec.harris_twice) = 2
  /\ length [Spec.harris] = 1
  /\ map c_shape (create_county_choropleth_data [Spec.harris] Spec.harris_twice)
     = [Spec.harris; Spec.harris].
Proof. repeat split; reflexivity. Qed.

(** ** Duplicate attribute records *)

(** C6 (amended). When one or more valid attribute records canonicalize to
    the code of a boundary (the boundary codes being distinct, and no
    fallback row settling on that boundary), the output has one row per
    such record for that region, in input order, each row carrying the
    columns of its own record: no record replaces another. *)
Theorem duplicates_yield_one_row_each (shapefile : list county)
    (csv : list alice_cols) (c : county) :
  let counties_gdf := map zfill_GEOID shapefile in
  let alice_df := load_alice_data csv in
  let valid := List.filter (fun a => valid_fips (FIPS a)) alice_df in
  let missing := List.filter (fun a => negb (valid_fips (FIPS a))) alice_df in
  List.NoDup (map GEOID counties_gdf) ->
  In c counties_gdf ->
  List.filter (fun a => String.eqb (FIPS a) (GEOID c)) valid <> [] ->
  (forall a, In a missing ->
             fallback_target counties_gdf a <> Some (GEOID c)) ->
  map c_attrs
    (List.filter (Spec.region (GEOID c))
       (create_county_choropleth_data shapefile csv))
  = map cols (List.filter (fun a => String.eqb (FIPS a) (GEOID c)) valid).
Proof.
  cbv zeta. intros Hnd Hin Hhit Hno.
  unfold create_county_choropleth_data.
  rewrite merged_gdf_unfold, filter_drop_FIPS.
  rewrite secondary_join_other by exact Hno.
  rewrite filter_merge_region by assumption.
  unfold rows_of. rewrite lookup_right_filter.
  destruct (List.filter _ _) as [| a hits]; [contradiction |].
  rewrite !map_map. reflexivity.
Qed.

Lemma duplicates_yield_one_row_each_witness :
  map c_attrs
    (List.filter (Spec.region "48201")
       (create_county_choropleth_data [Spec.harris; Spec.los_angeles]
          Spec.harris_twice))
  = Spec.harris_twice.
Proof.
  apply (duplicates_yield_one_row_each [Spec.harris; Spec.los_angeles]
           Spec.harris_twice Spec.harris).
  - repeat constructor; simpl; intuition discriminate.
  - left. reflexivity.
  - discriminate.
  - intros a [].
Defined.

(** C6, as stated, fails: two records for one code give two output rows,
    the first still carrying the first record's households, where the claim
    has one row with the last record's values. *)
Lemma duplicates_not_last_write_wins :
  map (fun r => Households (c_attrs r))
      (create_county_choropleth_data [Spec.harris] Spec.harris_twice)
  = [of_Z 100; of_Z 200].
Proof. reflexivity. Qed.

(** ** What the secondary join writes *)

(** C5 (amended). For a fallback row with exactly one boundary candidate,
    the secondary join leaves every output row's boundary fields, right
    key, [GEO id2], display label and [State Abbr] as they were and leaves
    the rows of other regions untouched; on every row of the candidate's
    region it writes the row's state and county and each metric column that
    is not null in the fallback row.  It does so whether or not the row was
    matched by the primary join. *)
Theorem secondary_join_writes (counties_gdf : list county)
    (merged : list merged_row) (a : alice_row) (name abbr : string)
    (c : county) :
  County (cols a) = Some name ->
  State_Abbr a = Some abbr ->
  county_match counties_gdf abbr name = [c] ->
  Forall2
    (fun m m' =>
       shape m' = shape m /\
       FIPS_y m' = FIPS_y m /\
       GEO_id2 (attrs m') = GEO_id2 (attrs m) /\
       GEO_display_label (attrs m') = GEO_display_label (attrs m) /\
       State_Abbr_col (attrs m') = State_Abbr_col (attrs m) /\
       (GEOID (shape m) <> GEOID c -> m' = m) /\
       (GEOID (shape m) = GEOID c ->
          State (attrs m') = State (cols a) /\
          County (attrs m') = County (cols a) /\
          Forall (fun col =>
                    col (attrs m')
                    = if notna (col (cols a)) then col (cols a)
                      else col (attrs m))
                 metric_columns))
    merged (secondary_join_row counties_gdf merged a).
Proof.
  intros Hcounty Habbr Hmatch.
  unfold secondary_join_row, fallback_target.
  rewrite Hcounty, Habbr, Hmatch. unfold update_masked.
  induction merged as [| m l IH]; simpl; constructor; [| exact IH].
  unfold mask.
  destruct (String.eqb_spec (GEOID (shape m)) (GEOID c)) as [E | N].
  - simpl. repeat split; try reflexivity; try contradiction;
      try exact Hcounty.
    repeat constructor.
  - repeat split; try reflexivity; contradiction.
Qed.

Lemma secondary_join_writes_witness :
  Forall2
    (fun m m' =>
       shape m' = shape m /\
       FIPS_y m' = FIPS_y m /\
       GEO_id2 (attrs m') = GEO_id2 (attrs m) /\
       GEO_display_label (attrs m') = GEO_display_label (attrs m) /\
       State_Abbr_col (attrs m') = State_Abbr_col (attrs m) /\
       (GEOID (shape m) <> GEOID Spec.harris -> m' = m) /\
       (GEOID (shape m) = GEOID Spec.harris ->
          State (attrs m') = State (cols Spec.harris_named) /\
          County (attrs m') = County (cols Spec.harris_named) /\
          Forall (fun col =>
                    col (attrs m')
                    = if notna (col (cols Spec.harris_named))
                      then col (cols Spec.harris_named)
                      else col (attrs m))
                 metric_columns))
    [unmatched Spec.harris; unmatched Spec.washington_dc]
    (secondary_join_row [Spec.harris; Spec.washington_dc]
       [unmatched Spec.harris; unmatched Spec.washington_dc]
       Spec.harris_named).
Proof.
  apply (secondary_join_writes [Spec.harris; Spec.washington_dc]
           [unmatched Spec.harris; unmatched Spec.washington_dc]
           Spec.harris_named "HARRIS" "TX" Spec.harris);
    reflexivity.
Defined.

(** C5, as stated, fails: a row matched by the primary join (its right key
    is set, 100 households) is overwritten by a later fallback row that
    names the same county (999 households). *)
Lemma primary_match_overwritten :
  map (fun m => (FIPS_y m, Households (attrs m)))
      (merge (map zfill_GEOID [Spec.harris])
         (List.filter (fun a => valid_fips (FIPS a))
            (load_alice_data Spec.harris_then_named)))
  = [(Some "48201", of_Z 100)] /\
  map (fun m => (FIPS_y m, Households (attrs m)))
      (merged_gdf [Spec.harris] Spec.harris_then_named)
  = [(Some "48201", of_Z 999)] /\
  map (fun r => Households (c_attrs r))
      (create_county_choropleth_data [Spec.harris] Spec.harris_then_named)
  = [of_Z 999].
Proof. repeat split; reflexivity. Qed.

(** ** The state table *)




(** ** Mock demographics *)

Section MockFacts.

Variable rng : Type.
Variable seed : Z -> rng.
Variable normal : Q -> Q -> rng -> Q * rng.

(** The records of a county with a finite household count are always
    produced: no conversion to an integer fails. *)
Lemma mock_county_returns fips row s :
  Census.finite (Census.alice_Households row) ->
  exists r s', Census.mock_county rng normal fips row s = Some (r, s').
Proof.
  intros [Hp Hn]. unfold Census.mock_county, Census.bind, Census.draw.
  destruct (Census.alice_Households row) as [| | | h]; try contradiction;
    simpl;
    repeat (match goal with
            | |- context [normal ?l ?d ?t] =>
                destruct (normal l d t) as [? ?]; simpl
            end);
    eauto.
Qed.

Lemma mock_rows_returns alice_df : forall s,
  Forall (fun row => Census.finite (Census.alice_Households row)) alice_df ->
  exists rs s', Census.mock_rows rng normal alice_df s = Some (rs, s').
Proof.
  induction alice_df as [| row rest IH]; intros s Hf; simpl.
  - unfold Census.ret. eauto.
  - inversion Hf as [| ? ? Hrow Hrest]; subst.
    destruct (negb _); [apply IH, Hrest |].
    unfold Census.bind.
    destruct (mock_county_returns
                (Str.zfill 5
                   (Str.first
                      (Str.split "." (Str.astype_str (Census.GEO_id2 row)))))
                row s Hrow) as (r & s1 & ->).
    destruct (IH s1 Hrest) as (rs & s2 & ->).
    unfold Census.ret. eauto.
Qed.

End MockFacts.

(** C10. Mock generation is deterministic: whatever state the global
    generator is in when [_create_mock_demographics] is called, the same
    ALICE table gives the same records and leaves the generator in the same
    state, because the generator is seeded with 42 before the first draw;
    and on a table of finite household counts the records are produced. *)
Theorem mock_demographics_deterministic (rng : Type) (seed : Z -> rng)
    (normal : Q -> Q -> rng -> Q * rng)
    (alice_df : list Census.alice_row) (global1 global2 : rng) :
  Census._create_mock_demographics rng seed normal alice_df global1
  = Census._create_mock_demographics rng seed normal alice_df global2 /\
  (Forall (fun row => Census.finite (Census.alice_Households row)) alice_df ->
   exists records after,
     Census._create_mock_demographics rng seed normal alice_df global1
     = Some (records, after)).
Proof.
  split; [reflexivity |].
  intros Hf. unfold Census._create_mock_demographics, Census.bind.
  simpl. apply mock_rows_returns, Hf.
Qed.

Lemma mock_demographics_deterministic_witness :
  Census._create_mock_demographics nat Spec.counter_seed Spec.counter_normal
    Spec.one_county 0
  = Census._create_mock_demographics nat Spec.counter_seed Spec.counter_normal
      Spec.one_county 7 /\
  exists records after,
    Census._create_mock_demographics nat Spec.counter_seed Spec.counter_normal
      Spec.one_county 0
    = Some (records, after).
Proof.
  split.
  - apply (mock_demographics_deterministic nat Spec.counter_seed
             Spec.counter_normal Spec.one_county 0 7).
  - apply (mock_demographics_deterministic nat Spec.counter_seed
             Spec.counter_normal Spec.one_county 0 7).
    repeat constructor; discriminate.
Defined.

(** The seed is what makes it so: the loop alone, started from two
    different generator states, gives different records. *)
Lemma mock_rows_depend_on_state :
  Census.mock_rows nat Spec.counter_normal Spec.one_county 0
  <> Census.mock_rows nat Spec.counter_normal Spec.one_county 7.
Proof. vm_compute. discriminate. Qed.

(* ================================================================== *)
(** * Part III: the rest of the pipeline                               *)
(* ================================================================== *)

(** ** Replacing, splitting and joining *)

Section ReplaceFacts.

Lemma replace_char_cons (a b ch : ascii) (r : string) :
  Str.replace (String a "") (String b "") (String ch r)
  = String (if Ascii.eqb a ch then b else ch)
           (Str.replace (String a "") (String b "") r).
Proof.
  unfold Str.replace. simpl. destruct (Ascii.eqb a ch); reflexivity.
Qed.

Lemma replace_char_nil (a b : ascii) :
  Str.replace (String a "") (String b "") "" = "".
Proof. reflexivity. Qed.

(** Replacing a character by another one leaves no occurrence of it. *)
Lemma replace_char_clean (a b : ascii) (s : string) :
  a <> b ->
  Str.contains a (Str.replace (String a "") (String b "") s) = false.
Proof.
  intros Hab. induction s as [| ch r IH]; [reflexivity |].
  rewrite replace_char_cons. cbn [Str.contains]. rewrite IH.
  destruct (Ascii.eqb_spec a ch) as [-> | N].
  - destruct (Ascii.eqb_spec b ch); [congruence | reflexivity].
  - destruct (Ascii.eqb_spec ch a); [congruence | reflexivity].
Qed.

(** A character that is neither of the two is as absent after as before. *)
Lemma replace_char_keeps (a b x : ascii) (s : string) :
  x <> a -> x <> b ->
  Str.contains x (Str.replace (String a "") (String b "") s)
  = Str.contains x s.
Proof.
  intros Ha Hb. induction s as [| ch r IH]; [reflexivity |].
  rewrite replace_char_cons. cbn [Str.contains]. rewrite IH. f_equal.
  destruct (Ascii.eqb_spec a ch) as [-> | N]; [| reflexivity].
  destruct (Ascii.eqb_spec b x), (Ascii.eqb_spec ch x); congruence.
Qed.

(** Replacing [a] by [b] and back is the identity on text without [b]. *)
Lemma replace_char_back (a b : ascii) (s : string) :
  Str.contains b s = false ->
  Str.replace (String b "") (String a "")
    (Str.replace (String a "") (String b "") s) = s.
Proof.
  induction s as [| ch r IH]; [reflexivity |].
  cbn [Str.contains]. intros H. apply orb_false_iff in H as [Hch Hr].
  rewrite !replace_char_cons, (IH Hr). f_equal.
  destruct (Ascii.eqb_spec a ch) as [-> | N].
  - rewrite Ascii.eqb_refl. reflexivity.
  - rewrite Ascii.eqb_sym, Hch. reflexivity.
Qed.

(** Text without the first character of [old] has no occurrence of
    [old], whatever the fuel. *)
Lemma replace_from_absent (a : ascii) (old' new s : string) : forall fuel,
  Str.contains a s = false ->
  Str.replace_from fuel (String a old') new s = s.
Proof.
  induction s as [| ch r IH]; intros [| fuel] H; try reflexivity.
  simpl in H. apply orb_false_iff in H as [Hch Hr].
  simpl. rewrite Ascii.eqb_sym, Hch, (IH fuel Hr). reflexivity.
Qed.

Lemma strip_prefix_self (p : string) : Str.strip_prefix p p = Some "".
Proof. induction p; simpl; rewrite ?Ascii.eqb_refl; auto. Qed.

Lemma replace_from_hit (old new s rest : string) (fuel : nat) :
  Str.strip_prefix old s = Some rest ->
  Str.replace_from (S fuel) old new s
  = new ++ Str.replace_from fuel old new rest.
Proof. intros H. cbn [Str.replace_from]. rewrite H. reflexivity. Qed.

(** A suffix [old] after text without the first character of [old] is
    the only occurrence. *)
Lemma replace_from_suffix (a : ascii) (old' s : string) : forall fuel,
  Str.contains a s = false ->
  (String.length s < fuel)%nat ->
  Str.replace_from fuel (String a old') "" (s ++ String a old') = s.
Proof.
  induction s as [| ch r IH]; intros [| fuel] H Hf; simpl in Hf; try lia.
  - change ("" ++ String a old') with (String a old').
    rewrite (replace_from_hit _ _ _ "" fuel (strip_prefix_self _)).
    destruct fuel; reflexivity.
  - simpl in H. apply orb_false_iff in H as [Hch Hr].
    simpl. rewrite Ascii.eqb_sym, Hch. f_equal. apply IH; [exact Hr | lia].
Qed.

Lemma split_app_sep (sep : ascii) (a b : string) :
  Str.split sep (a ++ String sep b)
  = (Str.split sep a ++ Str.split sep b)%list.
Proof.
  induction a as [| ch r IH]; simpl.
  - rewrite Ascii.eqb_refl. reflexivity.
  - destruct (Ascii.eqb ch sep); [rewrite IH; reflexivity |].
    rewrite IH. pose proof (split_nonempty sep r) as Hne.
    destruct (Str.split sep r); [contradiction | reflexivity].
Qed.

(** Text without the separator is one piece. *)
Lemma split_clean (sep : ascii) (s : string) :
  Str.contains sep s = false -> Str.split sep s = [s].
Proof.
  induction s as [| ch r IH]; [reflexivity |].
  simpl. intros H. apply orb_false_iff in H as [Hch Hr].
  rewrite Hch, (IH Hr). reflexivity.
Qed.

(** Joining the pieces of a split with the separator gives the text back. *)
Lemma join_split (sep : ascii) (s : string) :
  Str.join (String sep "") (Str.split sep s) = s.
Proof.
  induction s as [| ch r IH]; [reflexivity |].
  simpl. destruct (Ascii.eqb_spec ch sep) as [-> | N].
  - pose proof (split_nonempty sep r) as Hne.
    destruct (Str.split sep r) as [| w ws] eqn:E; [contradiction |].
    change (Str.join (String sep "") ("" :: w :: ws))
      with (String sep (Str.join (String sep "") (w :: ws))).
    rewrite IH. reflexivity.
  - pose proof (split_nonempty sep r) as Hne.
    destruct (Str.split sep r) as [| w ws] eqn:E; [contradiction |].
    destruct ws as [| w' ws']; simpl in *; congruence.
Qed.

(** Dropping two pieces at each end. *)
Lemma slice_inner {A : Type} (a b u v : A) (mid : list A) :
  Str.slice 2 (-2) (a :: b :: mid ++ [u; v]) = mid.
Proof.
  unfold Str.slice. simpl length. rewrite length_app. simpl length.
  set (n := length mid).
  replace (Z.of_nat (S (S (n + 2)))) with (Z.of_nat n + 4)%Z by lia.
  change (2 <? 0)%Z with false. change (-2 <? 0)%Z with true. cbv iota.
  replace (Z.min 2 (Z.of_nat n + 4)) with 2%Z by lia.
  replace (Z.max 0 (Z.of_nat n + 4 + -2)) with (Z.of_nat n + 2)%Z by lia.
  replace (Z.to_nat (Z.of_nat n + 2 - 2)) with n by lia.
  change (Z.to_nat 2) with 2%nat. simpl skipn.
  unfold n. rewrite skipn_O, firstn_app, Nat.sub_diag, firstn_all. simpl.
  apply app_nil_r.
Qed.

Lemma contains_lower_upper (x ch : ascii) :
  Str.is_upper x = false -> Str.is_lower x = false ->
  Ascii.eqb (Str.lower_char ch) x = Ascii.eqb ch x /\
  Ascii.eqb (Str.upper_char ch) x = Ascii.eqb ch x.
Proof.
  intros Hu Hl.
  destruct (Ascii.eqb_spec ch x) as [-> | N].
  - unfold Str.lower_char, Str.upper_char.
    unfold Str.is_upper in Hu. rewrite Hu, Hl, Ascii.eqb_refl. auto.
  - split; apply Ascii.eqb_neq; intros E; subst x.
    + unfold Str.lower_char in *.
      destruct ((65 <=? nat_of_ascii ch)%nat && (nat_of_ascii ch <=? 90)%nat)
        eqn:C; [| congruence].
      apply andb_true_iff in C as [C1 C2].
      apply Nat.leb_le in C1, C2.
      unfold Str.is_lower in Hl.
      rewrite nat_ascii_embedding in Hl by lia.
      apply andb_false_iff in Hl as [Hl | Hl]; apply Nat.leb_gt in Hl; lia.
    + unfold Str.upper_char in *.
      destruct (Str.is_lower ch) eqn:C; [| congruence].
      unfold Str.is_lower in C.
      apply andb_true_iff in C as [C1 C2].
      apply Nat.leb_le in C1, C2.
      unfold Str.is_upper in Hu.
      rewrite nat_ascii_embedding in Hu by lia.
      apply andb_false_iff in Hu as [Hu | Hu]; apply Nat.leb_gt in Hu; lia.
Qed.

(** Title case neither adds nor removes a character that is not a letter. *)
Lemma title_from_keeps (x : ascii) (s : string) : forall cased,
  Str.is_upper x = false -> Str.is_lower x = false ->
  Str.contains x (Str.title_from cased s) = Str.contains x s.
Proof.
  induction s as [| ch r IH]; intros cased Hu Hl; [reflexivity |].
  simpl. rewrite IH by assumption. f_equal.
  destruct (contains_lower_upper x ch Hu Hl) as [E1 E2].
  destruct cased; assumption.
Qed.

End ReplaceFacts.

(** ** File names *)

Section FileNames.

Lemma append_assoc_str (a b d : string) : (a ++ b) ++ d = a ++ (b ++ d).
Proof. induction a; simpl; congruence. Qed.

Lemma replace_xlsx (stem : string) :
  Str.contains "." stem = false ->
  Str.replace ".xlsx" "" (stem ++ ".xlsx") = stem.
Proof.
  intros H. unfold Str.replace.
  apply (replace_from_suffix "." "xlsx" stem); [exact H |].
  rewrite append_length. simpl. lia.
Qed.

Lemma replace_xlsx_absent (s : string) :
  Str.contains "." s = false -> Str.replace ".xlsx" "" s = s.
Proof. intros H. unfold Str.replace. apply replace_from_absent, H. Qed.

(** The parts of a name made of plain pieces. *)
Lemma split_pieces (a rest : string) :
  Str.contains "_" a = false ->
  Str.split "_" (a ++ String "_" rest) = a :: Str.split "_" rest.
Proof. intros H. rewrite split_app_sep, (split_clean _ _ H). reflexivity. Qed.

(** A name of the documented form: two plain leading parts, the words of
    the state, two plain trailing parts and the extension. *)
Lemma extract_of_format (p0 p1 d s0 s1 : string) :
  Spec.plain p0 -> Spec.plain p1 -> Spec.plain d ->
  Spec.plain s0 -> Spec.plain s1 ->
  Consolidator.extract_state_name
    (p0 ++ "_" ++ p1 ++ "_" ++ Str.replace " " "_" d
        ++ "_" ++ s0 ++ "_" ++ s1 ++ ".xlsx")
  = d.
Proof.
  intros [U0 D0] [U1 D1] [Ud Dd] [U2 D2] [U3 D3].
  set (d' := Str.replace " " "_" d).
  assert (Dd' : Str.contains "." d' = false).
  { unfold d'. rewrite replace_char_keeps by discriminate. exact Dd. }
  set (stem := p0 ++ "_" ++ p1 ++ "_" ++ d' ++ "_" ++ s0 ++ "_" ++ s1).
  assert (E : p0 ++ "_" ++ p1 ++ "_" ++ d' ++ "_" ++ s0 ++ "_" ++ s1 ++ ".xlsx"
              = stem ++ ".xlsx").
  { unfold stem. rewrite !append_assoc_str. reflexivity. }
  assert (Ds : Str.contains "." stem = false).
  { unfold stem. rewrite !contains_app, D0, D1, Dd', D2, D3. reflexivity. }
  unfold Consolidator.extract_state_name.
  rewrite E, (replace_xlsx stem Ds). unfold stem.
  repeat change ("_" ++ ?x) with (String "_" x).
  rewrite (split_pieces p0) by exact U0.
  rewrite (split_pieces p1) by exact U1.
  rewrite split_app_sep, (split_pieces s0) by exact U2.
  rewrite (split_clean "_" s1 U3).
  pose proof (split_nonempty "_" d') as Hne.
  replace (3 <=? length (p0 :: p1 :: Str.split "_" d' ++ [s0; s1]))%nat
    with true
    by (symmetry; apply Nat.leb_le; simpl; rewrite length_app; simpl; lia).
  rewrite slice_inner, join_split. unfold d'.
  apply (replace_char_back " " "_"), Ud.
Qed.

(** The display names of the scraper are plain when the slug is. *)
Lemma display_name_plain (slug : string) :
  Spec.plain slug -> Spec.plain (Scraper.state_display_name slug).
Proof.
  intros [U D]. unfold Scraper.state_display_name.
  destruct (_ !! slug) as [d |] eqn:L; unfold default.
  - apply elem_of_list_to_map_2 in L.
    assert (F : Forall (fun kv => Spec.plain (snd kv))
                       Scraper.state_name_mappings).
    { repeat constructor. }
    rewrite Forall_forall in F. exact (F _ L).
  - unfold Str.title. split.
    + rewrite title_from_keeps, replace_char_keeps
        by (reflexivity || discriminate).
      exact U.
    + rewrite title_from_keeps, replace_char_keeps
        by (reflexivity || discriminate).
      exact D.
Qed.

End FileNames.

(** X1. A file named in the documented format, two plain leading parts,
    the words of the state joined by underscores, two plain trailing parts
    and the extension, gives the state name with its words separated by
    spaces. *)
Theorem extract_state_name_format (p0 p1 d s0 s1 : string) :
  Spec.plain p0 -> Spec.plain p1 -> Spec.plain d ->
  Spec.plain s0 -> Spec.plain s1 ->
  Consolidator.extract_state_name
    (p0 ++ "_" ++ p1 ++ "_" ++ Str.replace " " "_" d
        ++ "_" ++ s0 ++ "_" ++ s1 ++ ".xlsx")
  = d.
Proof. apply extract_of_format. Qed.

Lemma extract_state_name_format_witness :
  Consolidator.extract_state_name
    ("2024" ++ "_" ++ "ALICE" ++ "_" ++ Str.replace " " "_" "New Mexico"
        ++ "_" ++ "Data" ++ "_" ++ "Sheet" ++ ".xlsx")
  = "New Mexico".
Proof.
  apply (extract_state_name_format "2024" "ALICE" "New Mexico" "Data" "Sheet");
    split; reflexivity.
Defined.

(** X2. The consolidator reads back the scraper's names: for a slug with
    no underscore and no point, the state name extracted from the file name
    the scraper saves the sheet under is the scraper's display name. *)
Theorem scraper_filename_round_trip (slug : string) :
  Spec.plain slug ->
  Consolidator.extract_state_name (Scraper.filename slug)
  = Scraper.state_display_name slug.
Proof.
  intros H. apply display_name_plain in H. unfold Scraper.filename.
  apply (extract_of_format "2025" "ALICE" _ "Data" "Sheet");
    try (split; reflexivity). exact H.
Qed.

Lemma scraper_filename_round_trip_witness :
  Consolidator.extract_state_name (Scraper.filename "new-hampshire")
  = Scraper.state_display_name "new-hampshire".
Proof.
  apply (scraper_filename_round_trip "new-hampshire"). split; reflexivity.
Defined.

(** X3. Names that are too short.  A name with fewer than three parts is
    returned whole, extension included; a name with three or four parts,
    such as one without the [Data_Sheet] suffix, gives the empty string:
    the state is lost. *)
Theorem extract_state_name_short (a b d e : string) :
  Spec.plain a -> Spec.plain b -> Spec.plain d -> Spec.plain e ->
  Consolidator.extract_state_name (a ++ ".xlsx") = a ++ ".xlsx" /\
  Consolidator.extract_state_name (a ++ "_" ++ b ++ ".xlsx")
    = a ++ "_" ++ b ++ ".xlsx" /\
  Consolidator.extract_state_name (a ++ "_" ++ b ++ "_" ++ d ++ ".xlsx")
    = "" /\
  Consolidator.extract_state_name
    (a ++ "_" ++ b ++ "_" ++ d ++ "_" ++ e ++ ".xlsx") = "".
Proof.
  intros [Ua Da] [Ub Db] [Ud Dd] [Ue De].
  unfold Consolidator.extract_state_name.
  repeat change ("_" ++ ?x) with (String "_" x).
  repeat split.
  - rewrite (replace_xlsx a Da), (split_clean "_" a Ua). reflexivity.
  - replace (a ++ String "_" (b ++ ".xlsx"))
      with ((a ++ String "_" b) ++ ".xlsx")
      by (rewrite append_assoc_str; reflexivity).
    rewrite replace_xlsx
      by (rewrite contains_app; simpl; rewrite Da, Db; reflexivity).
    rewrite (split_pieces a) by exact Ua.
    rewrite (split_clean "_" b Ub). reflexivity.
  - replace (a ++ String "_" (b ++ String "_" (d ++ ".xlsx")))
      with ((a ++ String "_" (b ++ String "_" d)) ++ ".xlsx")
      by (rewrite !append_assoc_str; simpl; rewrite !append_assoc_str;
          reflexivity).
    rewrite replace_xlsx
      by (rewrite !contains_app; simpl; rewrite !contains_app; simpl;
          rewrite Da, Db, Dd; reflexivity).
    rewrite (split_pieces a), (split_pieces b) by assumption.
    rewrite (split_clean "_" d Ud). reflexivity.
  - replace (a ++ String "_" (b ++ String "_" (d ++ String "_" (e ++ ".xlsx"))))
      with ((a ++ String "_" (b ++ String "_" (d ++ String "_" e))) ++ ".xlsx")
      by (rewrite !append_assoc_str; simpl; rewrite !append_assoc_str; simpl;
          rewrite !append_assoc_str; reflexivity).
    rewrite replace_xlsx
      by (rewrite !contains_app; simpl; rewrite !contains_app; simpl;
          rewrite !contains_app; simpl; rewrite Da, Db, Dd, De; reflexivity).
    rewrite (split_pieces a), (split_pieces b), (split_pieces d)
      by assumption.
    rewrite (split_clean "_" e Ue). reflexivity.
Qed.

Lemma extract_state_name_short_witness :
  Consolidator.extract_state_name ("2025" ++ ".xlsx") = "2025" ++ ".xlsx" /\
  Consolidator.extract_state_name ("2025" ++ "_" ++ "ALICE" ++ ".xlsx")
    = "2025" ++ "_" ++ "ALICE" ++ ".xlsx" /\
  Consolidator.extract_state_name
    ("2025" ++ "_" ++ "ALICE" ++ "_" ++ "Texas" ++ ".xlsx") = "" /\
  Consolidator.extract_state_name
    ("2025" ++ "_" ++ "ALICE" ++ "_" ++ "Texas" ++ "_" ++ "Data" ++ ".xlsx")
    = "".
Proof.
  apply (extract_state_name_short "2025" "ALICE" "Texas" "Data");
    split; reflexivity.
Defined.

(** ** Processing a directory of sheets *)

Section Batch.

Import Consolidator.

Variable today : string.

Lemma process_file_stats st f :
  let st' := process_file today st f in
  files_processed (stats st') + files_failed (stats st')
    = files_processed (stats st) + files_failed (stats st) + 1 /\
  files_failed (stats st')
    = files_failed (stats st) + (if Spec.fails f then 1 else 0) /\
  failed_files (stats st')
    = (failed_files (stats st)
       ++ (if Spec.fails f then [file_name f] else []))%list /\
  master_county st'
    = (master_county st ++ Spec.county_rows_of today f)%list /\
  master_subcounty st'
    = (master_subcounty st ++ Spec.subcounty_rows_of today f)%list /\
  stat_total_counties (stats st')
    = stat_total_counties (stats st) + length (Spec.county_rows_of today f) /\
  total_subcounty_areas (stats st')
    = total_subcounty_areas (stats st)
      + length (Spec.subcounty_rows_of today f).
Proof.
  unfold process_file, process_single_file, Spec.fails, Spec.county_rows_of,
    Spec.subcounty_rows_of.
  destruct (opened f) as [[county sub] |]; simpl;
    [destruct county, sub |]; simpl;
    rewrite ?app_nil_r, ?Nat.add_0_r; repeat split; lia.
Qed.

Lemma process_all_files_stats files : forall st,
  let st' := process_all_files today st files in
  files_processed (stats st') + files_failed (stats st')
    = files_processed (stats st) + files_failed (stats st) + length files /\
  files_failed (stats st')
    = files_failed (stats st) + length (List.filter Spec.fails files) /\
  failed_files (stats st')
    = (failed_files (stats st)
       ++ map file_name (List.filter Spec.fails files))%list /\
  master_county st'
    = (master_county st ++ flat_map (Spec.county_rows_of today) files)%list /\
  master_subcounty st'
    = (master_subcounty st
       ++ flat_map (Spec.subcounty_rows_of today) files)%list /\
  stat_total_counties (stats st')
    = stat_total_counties (stats st)
      + length (flat_map (Spec.county_rows_of today) files) /\
  total_subcounty_areas (stats st')
    = total_subcounty_areas (stats st)
      + length (flat_map (Spec.subcounty_rows_of today) files).
Proof.
  unfold process_all_files.
  induction files as [| f files IH]; intros st; simpl.
  - rewrite !app_nil_r, !Nat.add_0_r. repeat split; reflexivity.
  - destruct (IH (process_file today st f)) as (A & B & C & D & E & F & G).
    destruct (process_file_stats st f) as (a & b & c & d & e & f' & g).
    cbv zeta in *. rewrite A, B, C, D, E, F, G, b, c, d, e, f', g.
    rewrite !length_app, <- !app_assoc.
    destruct (Spec.fails f); simpl; repeat split; lia.
Qed.

End Batch.

(** X4. Every file of a run is counted once: after [process_all_files]
    from a fresh consolidator, the files processed and the files failed
    add up to the number of files, the failed ones are those on which
    opening the workbook or reading a sheet raised, and [failed_files]
    lists their names in the order of the run. *)
Theorem every_file_counted_once (today : string)
    (files : list Consolidator.excel_file) :
  let st := Consolidator.process_all_files today Consolidator.init files in
  Consolidator.files_processed (Consolidator.stats st)
    + Consolidator.files_failed (Consolidator.stats st) = length files /\
  Consolidator.files_failed (Consolidator.stats st)
    = length (List.filter Spec.fails files) /\
  Consolidator.failed_files (Consolidator.stats st)
    = map Consolidator.file_name (List.filter Spec.fails files).
Proof.
  destruct (process_all_files_stats today files Consolidator.init)
    as (A & B & C & _).
  cbv zeta. repeat split; [exact A | exact B | exact C].
Qed.

(** X5. The row counters agree with the tables: after a run from a fresh
    consolidator, [total_counties] is the number of rows of the master
    county table and [total_subcounty_areas] that of the master subcounty
    table, whatever files failed. *)
Theorem row_counters_match_tables (today : string)
    (files : list Consolidator.excel_file) :
  let st := Consolidator.process_all_files today Consolidator.init files in
  Consolidator.stat_total_counties (Consolidator.stats st)
    = length (Consolidator.master_county st) /\
  Consolidator.total_subcounty_areas (Consolidator.stats st)
    = length (Consolidator.master_subcounty st).
Proof.
  destruct (process_all_files_stats today files Consolidator.init)
    as (_ & _ & _ & D & E & F & G).
  cbv zeta. rewrite D, E, F, G. split; reflexivity.
Qed.

(** X6. The master county table is, in the order of the run, the cleaned
    County sheets of the files whose workbook opened and whose County
    sheet was read.  A file that fails later, on its Subcounty sheet, is
    reported as failed and still leaves its county rows in the table. *)
Theorem failed_file_leaves_county_rows (today : string)
    (files : list Consolidator.excel_file) :
  let st := Consolidator.process_all_files today Consolidator.init files in
  Consolidator.master_county st
    = flat_map (Spec.county_rows_of today) files /\
  (forall f county_df subcounty,
     In f files ->
     Consolidator.opened f
       = Some {| Consolidator.County_sheet := Consolidator.Rows county_df;
                 Consolidator.Subcounty_sheet := subcounty |} ->
     subcounty = Consolidator.Raises ->
     In (Consolidator.file_name f)
        (Consolidator.failed_files (Consolidator.stats st)) /\
     incl (Consolidator.clean_county_data county_df
             (Consolidator.extract_state_name (Consolidator.file_name f))
             today)
          (Consolidator.master_county st)).
Proof.
  destruct (process_all_files_stats today files Consolidator.init)
    as (_ & _ & C & D & _).
  cbv zeta. split; [exact D |].
  intros f county_df subcounty Hin Hopen ->. split.
  - rewrite C. simpl. apply in_map, filter_In. split; [exact Hin |].
    unfold Spec.fails. rewrite Hopen. reflexivity.
  - rewrite D. simpl. intros r Hr. apply in_flat_map.
    exists f. split; [exact Hin |].
    unfold Spec.county_rows_of. rewrite Hopen. exact Hr.
Qed.

Lemma failed_file_leaves_county_rows_witness :
  In (Consolidator.file_name Spec.half_read)
     (Consolidator.failed_files
        (Consolidator.stats
           (Consolidator.process_all_files "2025-01-01" Consolidator.init
              [Spec.half_read]))) /\
  incl (Consolidator.clean_county_data [Spec.row_one_in_32]
          (Consolidator.extract_state_name
             (Consolidator.file_name Spec.half_read))
          "2025-01-01")
       (Consolidator.master_county
          (Consolidator.process_all_files "2025-01-01" Consolidator.init
             [Spec.half_read])).
Proof.
  apply (proj2 (failed_file_leaves_county_rows "2025-01-01" [Spec.half_read])
           Spec.half_read [Spec.row_one_in_32] Consolidator.Raises).
  - left. reflexivity.
  - reflexivity.
  - reflexivity.
Defined.

(** ** Ranges of the derived percentages *)

Section Ranges.

Local Open Scope Q_scope.

(** [rint] stays between integer bounds. *)
Lemma rint_Q_between (lo hi : Z) (y : Q) :
  inject_Z lo <= y -> y <= inject_Z hi ->
  (lo <= rint_Q y <= hi)%Z.
Proof.
  intros Hlo Hhi. destruct (rint_Q_nearest y) as [N _].
  apply Qabs_Qle_condition in N as [N1 N2].
  split.
  - destruct (Z_lt_le_dec (rint_Q y) lo) as [L |]; [| assumption].
    exfalso. assert (E : (rint_Q y + 1 <= lo)%Z) by lia.
    rewrite Zle_Qle, inject_Z_plus in E. change (inject_Z 1) with 1 in E.
    lra.
  - destruct (Z_lt_le_dec hi (rint_Q y)) as [L |]; [| assumption].
    exfalso. assert (E : (hi + 1 <= rint_Q y)%Z) by lia.
    rewrite Zle_Qle, inject_Z_plus in E. change (inject_Z 1) with 1 in E.
    lra.
Qed.

Lemma scaled_ratio_between (n h : Z) :
  (0 <= n <= h)%Z -> (0 < h)%Z ->
  inject_Z 0 <= inject_Z n / inject_Z h * 100 * 100 /\
  inject_Z n / inject_Z h * 100 * 100 <= inject_Z 10000.
Proof.
  intros [Hn Hnh] Hh.
  assert (Hq : 0 < inject_Z h).
  { change 0 with (inject_Z 0). rewrite <- Zlt_Qlt. exact Hh. }
  assert (R0 : 0 <= inject_Z n / inject_Z h).
  { apply Qle_shift_div_l; [exact Hq |]. rewrite Qmult_0_l.
    change 0 with (inject_Z 0). rewrite <- Zle_Qle. exact Hn. }
  assert (R1 : inject_Z n / inject_Z h <= 1).
  { apply Qle_shift_div_r; [exact Hq |]. rewrite Qmult_1_l.
    rewrite <- Zle_Qle. exact Hnh. }
  change (inject_Z 0) with 0. change (inject_Z 10000) with 10000.
  generalize dependent (inject_Z n / inject_Z h). intros r R0 R1.
  split; lra.
Qed.

Lemma hundredths_between (k : Z) :
  (0 <= k <= 10000)%Z -> 0 <= inject_Z k / 100 /\ inject_Z k / 100 <= 100.
Proof.
  intros [K0 K1]. unfold Qle, Qdiv, Qmult, Qinv, inject_Z. simpl. lia.
Qed.

(** A share of the households, as a percentage, lies between 0 and 100. *)
Lemma percentage_between (n h : Z) :
  (0 <= n <= h)%Z -> (0 < h)%Z ->
  exists q, Consolidator.percentage (of_Z n) (of_Z h) = Fin q /\
            0 <= q /\ q <= 100.
Proof.
  intros Hn Hh. eexists. split.
  - unfold of_Z at 1. apply percentage_Fin. lia.
  - apply hundredths_between.
    destruct (scaled_ratio_between n h Hn Hh) as [A B].
    apply rint_Q_between; assumption.
Qed.


End Ranges.

(** X7. For a row whose household counts are non-negative and do not
    exceed a positive total, the four derived percentages are finite and
    lie between 0 and 100. *)
Theorem percentages_between_0_and_100 (state_name today : string)
    (r : Consolidator.county_sheet_row) (h p a b : Z) :
  Consolidator.Households r = Some h ->
  Consolidator.Poverty_Households r = Some p ->
  Consolidator.ALICE_Households r = Some a ->
  Consolidator.Above_ALICE_Households r = Some b ->
  (0 < h)%Z -> (0 <= p)%Z -> (0 <= a)%Z -> (0 <= b <= h)%Z ->
  (p + a <= h)%Z ->
  let out := Consolidator.clean_county_row state_name today r in
  let in_range (field : float64) :=
    exists q, field = Fin q /\ (0 <= q)%Q /\ (q <= 100)%Q in
  in_range (Consolidator.Poverty_Percentage out) /\
  in_range (Consolidator.ALICE_Percentage out) /\
  in_range (Consolidator.Above_ALICE_Percentage out) /\
  in_range (Consolidator.Below_ALICE_Threshold_Percentage out).
Proof.
  intros Hh Hp Ha Hb Hpos Hp0 Ha0 Hb0 Hsum. cbv zeta.
  unfold Consolidator.clean_county_row. simpl.
  rewrite Hh, Hp, Ha, Hb. simpl.
  repeat split; try (apply percentage_between; lia).
  change (add (of_Z p) (of_Z a)) with (Fin (inject_Z p + inject_Z a)).
  rewrite <- inject_Z_plus. apply percentage_between; lia.
Qed.

Lemma percentages_between_0_and_100_witness :
  exists q,
    Consolidator.Poverty_Percentage
      (Consolidator.clean_county_row "Texas" "2025-01-01" Spec.row_one_in_32)
    = Fin q /\ (0 <= q)%Q /\ (q <= 100)%Q.
Proof.
  pose proof (percentages_between_0_and_100 "Texas" "2025-01-01"
    Spec.row_one_in_32 32%Z 1%Z 2%Z 29%Z eq_refl eq_refl eq_refl eq_refl
    ltac:(lia) ltac:(lia) ltac:(lia) ltac:(lia) ltac:(lia)) as W.
  exact (proj1 W).
Defined.



(** The difference does occur: with one household in poverty and one
    ALICE household out of three, the parts are 33.33 each and the
    below-threshold percentage is 66.67. *)
Example below_threshold_not_the_sum :
  let out :=
    Consolidator.clean_county_row "Texas" "2025-01-01"
      (Spec.sheet_row (Some 3%Z) (Some 1%Z) (Some 1%Z) (Some 1%Z)) in
  Consolidator.Poverty_Percentage out = Fin (3333 # 100) /\
  Consolidator.ALICE_Percentage out = Fin (3333 # 100) /\
  Consolidator.Below_ALICE_Threshold_Percentage out = Fin (6667 # 100).
Proof. repeat split; reflexivity. Qed.

(** ** Codes stored as numbers *)

Section Codes.

Lemma digit_not_dot (ch : ascii) :
  Str.is_digit ch = true -> Ascii.eqb ch "." = false.
Proof.
  intros H.
  destruct (Ascii.eqb_spec ch "."); [subst; discriminate | reflexivity].
Qed.

Lemma digit_not_sign (ch : ascii) :
  Str.is_digit ch = true -> Str.is_sign ch = false.
Proof.
  intros H. unfold Str.is_sign.
  destruct (Ascii.eqb_spec ch "+"); [subst; discriminate |].
  destruct (Ascii.eqb_spec ch "-"); [subst; discriminate | reflexivity].
Qed.

Lemma all_digits_no_dot (s : string) :
  Str.all_digits s = true -> Str.contains "." s = false.
Proof.
  induction s as [| ch r IH]; [reflexivity |].
  simpl. intros H. apply andb_true_iff in H as [Hc Hr].
  rewrite (digit_not_dot ch Hc), (IH Hr). reflexivity.
Qed.

Lemma all_digits_app (s t : string) :
  Str.all_digits (s ++ t) = Str.all_digits s && Str.all_digits t.
Proof.
  induction s as [| ch r IH]; [reflexivity |].
  simpl. rewrite IH. apply andb_assoc.
Qed.

Lemma all_digits_zeros (n : nat) : Str.all_digits (Str.zeros n) = true.
Proof. induction n; simpl; auto. Qed.

Lemma append_nil_r (s : string) : s ++ "" = s.
Proof. induction s; simpl; congruence. Qed.

(** Zero fill of a digit string is plain padding on the left. *)
Lemma zfill_digits (w : nat) (s : string) :
  Str.all_digits s = true ->
  Str.zfill w s = Str.zeros (w - String.length s) ++ s.
Proof.
  intros H. unfold Str.zfill.
  destruct (Nat.leb_spec w (String.length s)) as [L | L].
  - replace (w - String.length s)%nat with 0%nat by lia. reflexivity.
  - destruct s as [| ch r]; [symmetry; apply append_nil_r |].
    simpl in H. apply andb_true_iff in H as [Hc _].
    rewrite (digit_not_sign ch Hc). reflexivity.
Qed.

Lemma first_split_prefix (sep : ascii) (a b : string) :
  Str.contains sep a = false ->
  Str.first (Str.split sep (a ++ String sep b)) = a.
Proof.
  intros H. rewrite split_app_sep, (split_clean sep a H). reflexivity.
Qed.

End Codes.

(** X9. A county code written in digits, of at most five of them, comes
    out of the clean-up as the same digits padded with zeros to five
    characters, whether it was stored as text or as a number rendered with
    a fractional part; both renderings give the same valid, all-digit
    key. *)
Theorem clean_FIPS_of_digits (digits fraction : string) :
  Str.all_digits digits = true ->
  (String.length digits <= 5)%nat ->
  let code := Str.zeros (5 - String.length digits) ++ digits in
  clean_FIPS (Some (digits ++ "." ++ fraction)) = code /\
  clean_FIPS (Some digits) = code /\
  canonicalize (Some (digits ++ "." ++ fraction)) = Some code /\
  String.length code = 5 /\
  Str.all_digits code = true.
Proof.
  intros Hd Hlen. cbv zeta.
  assert (Hdot := all_digits_no_dot digits Hd).
  assert (E1 : clean_FIPS (Some (digits ++ "." ++ fraction))
               = Str.zeros (5 - String.length digits) ++ digits).
  { unfold clean_FIPS. cbn [Str.astype_str].
    change ("." ++ fraction) with (String "." fraction).
    rewrite first_split_prefix by exact Hdot. apply zfill_digits, Hd. }
  assert (L : String.length (Str.zeros (5 - String.length digits) ++ digits)
              = 5).
  { rewrite append_length, zeros_length. lia. }
  repeat split.
  - exact E1.
  - unfold clean_FIPS. cbn [Str.astype_str].
    rewrite first_split_id by exact Hdot. apply zfill_digits, Hd.
  - unfold canonicalize, valid_fips. rewrite E1, L. reflexivity.
  - exact L.
  - rewrite all_digits_app, all_digits_zeros, Hd. reflexivity.
Qed.

Lemma clean_FIPS_of_digits_witness :
  clean_FIPS (Some ("6037" ++ "." ++ "0")) = Str.zeros (5 - 4) ++ "6037" /\
  clean_FIPS (Some "6037") = Str.zeros (5 - 4) ++ "6037" /\
  canonicalize (Some ("6037" ++ "." ++ "0"))
    = Some (Str.zeros (5 - 4) ++ "6037") /\
  String.length (Str.zeros (5 - 4) ++ "6037") = 5 /\
  Str.all_digits (Str.zeros (5 - 4) ++ "6037") = true.
Proof.
  apply (clean_FIPS_of_digits "6037" "0"); [reflexivity | simpl; lia].
Defined.

(** ** Rows the joins drop or rewrite *)

Section Orphans.

Lemma lookup_right_skip (c : county) (a : alice_row) (r1 r2 : list alice_row) :
  GEOID c <> FIPS a ->
  lookup_right c (r1 ++ a :: r2) = lookup_right c (r1 ++ r2).
Proof.
  intros N. rewrite !lookup_right_filter, !List.filter_app. simpl.
  apply not_eq_sym in N. apply String.eqb_neq in N. rewrite N. reflexivity.
Qed.

Lemma merge_skip (a : alice_row) (r1 r2 : list alice_row)
    (left : list county) :
  Forall (fun c => GEOID c <> FIPS a) left ->
  merge left (r1 ++ a :: r2) = merge left (r1 ++ r2).
Proof.
  induction 1 as [| c left Hc _ IH]; [reflexivity |].
  simpl. unfold rows_of. rewrite lookup_right_skip by exact Hc.
  rewrite IH. reflexivity.
Qed.

Lemma assign_notna_twice (x old : float64) :
  assign_notna x (assign_notna x old) = assign_notna x old.
Proof. unfold assign_notna. destruct (notna x); reflexivity. Qed.

Lemma update_twice (a : alice_cols) (m : merged_row) :
  update a (update a m) = update a m.
Proof.
  unfold update. simpl. rewrite !assign_notna_twice. reflexivity.
Qed.

Lemma mask_update (g : string) (a : alice_cols) (m : merged_row) :
  mask g (update a m) = mask g m.
Proof. reflexivity. Qed.

End Orphans.

(** X10. An ALICE row with a valid code that is the code of no county is
    dropped by the join: the output is what it would be without the row.
    The row is kept nowhere. *)
Theorem orphaned_row_is_dropped (shapefile : list county)
    (csv1 csv2 : list alice_cols) (x : alice_cols) :
  valid_fips (clean_FIPS (GEO_id2 x)) = true ->
  Forall (fun c => Str.zfill 5 (GEOID c) <> clean_FIPS (GEO_id2 x))
         shapefile ->
  create_county_choropleth_data shapefile (csv1 ++ x :: csv2)
  = create_county_choropleth_data shapefile (csv1 ++ csv2).
Proof.
  intros Hv Hno. unfold create_county_choropleth_data. f_equal.
  rewrite !merged_gdf_unfold. unfold load_alice_data.
  rewrite !map_app. simpl map. rewrite !List.filter_app. simpl List.filter.
  rewrite Hv. simpl negb. cbv iota.
  f_equal. apply merge_skip.
  apply Forall_map. simpl. exact Hno.
Qed.

Lemma orphaned_row_is_dropped_witness :
  create_county_choropleth_data [Spec.harris]
    ([Spec.alice (Some "48201") "Texas" "Harris" 100]
     ++ Spec.alice (Some "99999") "Texas" "Nowhere" 7 :: [])
  = create_county_choropleth_data [Spec.harris]
      ([Spec.alice (Some "48201") "Texas" "Harris" 100] ++ []).
Proof.
  apply (orphaned_row_is_dropped [Spec.harris]
           [Spec.alice (Some "48201") "Texas" "Harris" 100] []
           (Spec.alice (Some "99999") "Texas" "Nowhere" 7)).
  - reflexivity.
  - repeat constructor. discriminate.
Defined.

(** X11. Applying a fallback row a second time changes nothing. *)
Theorem secondary_join_row_idempotent (counties_gdf : list county)
    (merged : list merged_row) (a : alice_row) :
  secondary_join_row counties_gdf
    (secondary_join_row counties_gdf merged a) a
  = secondary_join_row counties_gdf merged a.
Proof.
  unfold secondary_join_row.
  destruct (fallback_target counties_gdf a) as [g |]; [| reflexivity].
  unfold update_masked. rewrite map_map. apply map_ext. intros m.
  destruct (mask g m) eqn:E.
  - rewrite mask_update, E. apply update_twice.
  - rewrite E. reflexivity.
Qed.

(** X12. Two fallback rows that settle on the same region: on every row
    of the region each metric column ends with the last value that is not
    null, the second row's if it has one, else the first row's, else the
    value before; state and county are the second row's.  A region can so
    carry metrics from two different records. *)
Theorem later_fallback_row_wins_by_column (counties_gdf : list county)
    (merged : list merged_row) (a1 a2 : alice_row) (g : string) :
  fallback_target counties_gdf a1 = Some g ->
  fallback_target counties_gdf a2 = Some g ->
  Forall2
    (fun m m' =>
       if mask g m then
         State (attrs m') = State (cols a2) /\
         County (attrs m') = County (cols a2) /\
         Forall (fun col =>
                   col (attrs m')
                   = if notna (col (cols a2)) then col (cols a2)
                     else if notna (col (cols a1)) then col (cols a1)
                     else col (attrs m))
                metric_columns
       else m' = m)
    merged (secondary_join counties_gdf merged [a1; a2]).
Proof.
  intros T1 T2. unfold secondary_join. simpl.
  unfold secondary_join_row. rewrite T1, T2. unfold update_masked.
  rewrite map_map.
  induction merged as [| m l IH]; simpl; constructor; [| exact IH].
  destruct (mask g m) eqn:E.
  - rewrite mask_update, E. simpl. repeat split. repeat constructor.
  - rewrite E. reflexivity.
Qed.

Lemma later_fallback_row_wins_by_column_witness :
  Forall2
    (fun m m' =>
       if mask "48201" m then
         State (attrs m') = State (cols Spec.harris_named_no_households) /\
         County (attrs m') = County (cols Spec.harris_named_no_households) /\
         Forall (fun col =>
                   col (attrs m')
                   = if notna (col (cols Spec.harris_named_no_households))
                     then col (cols Spec.harris_named_no_households)
                     else if notna (col (cols Spec.harris_named))
                     then col (cols Spec.harris_named)
                     else col (attrs m))
                metric_columns
       else m' = m)
    [unmatched Spec.harris]
    (secondary_join [Spec.harris] [unmatched Spec.harris]
       [Spec.harris_named; Spec.harris_named_no_households]).
Proof.
  apply (later_fallback_row_wins_by_column [Spec.harris]
           [unmatched Spec.harris] Spec.harris_named
           Spec.harris_named_no_households "48201");
    vm_compute; reflexivity.
Defined.

(** The mix, run: households of the first row, percentages of the
    second. *)
Example metrics_of_two_records :
  map (fun m => (Households (attrs m), ALICE_Percentage (attrs m)))
      (secondary_join [Spec.harris] [unmatched Spec.harris]
         [Spec.harris_named; Spec.harris_named_no_households])
  = [(of_Z 999, Fin (20 # 1))].
Proof. vm_compute. reflexivity. Qed.

(** ** Coverage *)

Section Coverage.

Local Open Scope Q_scope.



End Coverage.



(** ** The current year *)

Section CurrentYear.

Import Cleaner.

Lemma year_max_Some (l : list (option Z)) (m : Z) :
  year_max l = Some m ->
  In (Some m) l /\ forall y, In (Some y) l -> (y <= m)%Z.
Proof.
  revert m. induction l as [| [a |] rest IH]; intros m H; simpl in H.
  - discriminate.
  - destruct (year_max rest) as [b |] eqn:E.
    + injection H as <-. destruct (IH b eq_refl) as [Hin Hmax].
      split.
      * destruct (Z.max_spec a b) as [[_ ->] | [_ ->]];
          [right; exact Hin | left; reflexivity].
      * intros y [Hy | Hy]; [injection Hy as <-; lia |].
        specialize (Hmax y Hy). lia.
    + injection H as <-. split; [left; reflexivity |].
      intros y [Hy | Hy]; [injection Hy as <-; lia |].
      exfalso. clear IH. induction rest as [| [c |] rest IH]; simpl in *.
      * contradiction.
      * destruct (year_max rest); discriminate.
      * destruct Hy as [Hy | Hy]; [discriminate | auto].
  - destruct (IH m H) as [Hin Hmax]. split; [right; exact Hin |].
    intros y [Hy | Hy]; [discriminate | auto].
Qed.

Lemma year_max_None (l : list (option Z)) (y : Z) :
  year_max l = None -> ~ In (Some y) l.
Proof.
  induction l as [| [a |] rest IH]; simpl; intros H; [tauto | |].
  - destruct (year_max rest); discriminate.
  - intros [Hy | Hy]; [discriminate | exact (IH H Hy)].
Qed.

(** The largest year is the one that is in the column and bounds it. *)
Lemma year_max_unique (l : list (option Z)) (m : Z) :
  In (Some m) l -> (forall y, In (Some y) l -> (y <= m)%Z) ->
  year_max l = Some m.
Proof.
  intros Hin Hmax. destruct (year_max l) as [b |] eqn:E.
  - destruct (year_max_Some l b E) as [Hb Hbmax].
    specialize (Hmax b Hb). specialize (Hbmax m Hin). f_equal. lia.
  - exfalso. exact (year_max_None l m E Hin).
Qed.

Lemma is_year_true (m : option Z) (r : Consolidator.county_row) :
  is_year m r = true <-> exists y, Year r = Some y /\ m = Some y.
Proof.
  unfold is_year. destruct (Year r) as [y |], m as [x |]; split;
    try discriminate; try (intros (y' & A & B); discriminate).
  - intros H. apply Z.eqb_eq in H. subst. eauto.
  - intros (y' & A & B). injection A as <-. injection B as <-.
    apply Z.eqb_refl.
Qed.

Lemma filter_twice {A : Type} (f : A -> bool) (l : list A) :
  List.filter f (List.filter f l) = List.filter f l.
Proof.
  induction l as [| x l IH]; simpl; [reflexivity |].
  destruct (f x) eqn:E; simpl; rewrite ?E, IH; reflexivity.
Qed.

End CurrentYear.

(** X14. The current-year table holds exactly the rows of the master
    table whose year is present and is the largest year of the table, so a
    county whose latest row is older is absent from it; selecting the
    current year again changes nothing. *)
Theorem current_county_is_latest_year
    (county_df : list Consolidator.county_row) :
  (forall r,
     In r (Cleaner.current_county county_df) <->
     In r county_df /\
     exists y, Cleaner.Year r = Some y /\
               forall r' y', In r' county_df ->
                             Cleaner.Year r' = Some y' -> (y' <= y)%Z) /\
  Cleaner.current_county (Cleaner.current_county county_df)
  = Cleaner.current_county county_df.
Proof.
  split.
  - intros r. unfold Cleaner.current_county. rewrite filter_In, is_year_true.
    split.
    + intros [Hin (y & Hy & Hm)]. split; [exact Hin |].
      exists y. split; [exact Hy |]. intros r' y' Hr' Hy'.
      apply year_max_Some in Hm as [_ Hmax].
      apply Hmax. rewrite <- Hy'. apply in_map, Hr'.
    + intros [Hin (y & Hy & Hmax)]. split; [exact Hin |].
      exists y. split; [exact Hy |]. apply year_max_unique.
      * rewrite <- Hy. apply in_map, Hin.
      * intros y' Hy'. apply in_map_iff in Hy' as (r' & Hr' & Hin').
        exact (Hmax r' y' Hin' Hr').
  - unfold Cleaner.current_county at 1 2.
    destruct (Cleaner.year_max (map Cleaner.Year county_df)) as [m |] eqn:E.
    + assert (E' : Cleaner.year_max
                     (map Cleaner.Year
                        (List.filter (Cleaner.is_year (Some m)) county_df))
                   = Some m).
      { apply year_max_Some in E as [Hin Hmax].
        apply in_map_iff in Hin as (r & Hr & Hin).
        apply year_max_unique.
        - apply in_map_iff. exists r. split; [exact Hr |].
          apply filter_In. split; [exact Hin |].
          apply is_year_true. eauto.
        - intros y Hy. apply in_map_iff in Hy as (r' & Hr' & Hin').
          apply filter_In in Hin' as [Hin' _].
          apply Hmax. rewrite <- Hr'. apply in_map, Hin'. }
      rewrite E'. unfold Cleaner.current_county. rewrite E.
      apply filter_twice.
    + unfold Cleaner.current_county. rewrite E.
      assert (N : List.filter (Cleaner.is_year None) county_df = []).
      { clear E. induction county_df as [| r l IH]; [reflexivity |].
        simpl. unfold Cleaner.is_year at 1.
        destruct (Cleaner.Year r); exact IH. }
      rewrite N. reflexivity.
Qed.

(** ** Census rates and keys *)

Section CensusRates.

Local Open Scope Q_scope.



Lemma mul_isna_finite (x y : float64) :
  Census.finite x -> Census.finite y ->
  isna (mul x y) = isna x || isna y.
Proof.
  intros [X1 X2] [Y1 Y2]. destruct x, y; try reflexivity; contradiction.
Qed.

Lemma div_100_isna (x : float64) : isna (div x (of_Z 100)) = isna x.
Proof. destruct x; reflexivity. Qed.

End CensusRates.



(** X16. The key built from the Census state and county codes: when the
    state code has at most two digits and the county code at most three,
    the key has five characters, all digits, and is a code the identifier
    clean-up of the boundary join leaves as it is. *)
Theorem api_FIPS_is_canonical (r : Census.api_row) :
  Str.all_digits (Census.state r) = true ->
  Str.all_digits (Census.county r) = true ->
  (String.length (Census.state r) <= 2)%nat ->
  (String.length (Census.county r) <= 3)%nat ->
  String.length (Census.api_FIPS r) = 5 /\
  Str.all_digits (Census.api_FIPS r) = true /\
  canonicalize (Some (Census.api_FIPS r)) = Some (Census.api_FIPS r).
Proof.
  intros Hs Hc Ls Lc. unfold Census.api_FIPS.
  rewrite (zfill_digits 2 _ Hs), (zfill_digits 3 _ Hc).
  set (key := (Str.zeros (2 - String.length (Census.state r))
               ++ Census.state r)
              ++ Str.zeros (3 - String.length (Census.county r))
              ++ Census.county r).
  assert (L : String.length key = 5).
  { unfold key. rewrite !append_length, !zeros_length. lia. }
  assert (D : Str.all_digits key = true).
  { unfold key. rewrite !all_digits_app, !all_digits_zeros, Hs, Hc.
    reflexivity. }
  repeat split; [exact L | exact D |].
  unfold canonicalize, clean_FIPS. cbn [Str.astype_str].
  rewrite first_split_id by (apply all_digits_no_dot, D).
  rewrite zfill_long by lia.
  unfold valid_fips. rewrite L. reflexivity.
Qed.

Lemma api_FIPS_is_canonical_witness :
  String.length (Census.api_FIPS (Spec.api_county "6" "37" 300 100)) = 5 /\
  Str.all_digits (Census.api_FIPS (Spec.api_county "6" "37" 300 100)) = true
  /\
  canonicalize (Some (Census.api_FIPS (Spec.api_county "6" "37" 300 100)))
  = Some (Census.api_FIPS (Spec.api_county "6" "37" 300 100)).
Proof.
  apply (api_FIPS_is_canonical (Spec.api_county "6" "37" 300 100));
    try reflexivity; simpl; lia.
Defined.

(** ** Derived population counts *)

(** X17. Null propagation of the derived population metrics, for inputs
    that are numbers or null: a derived population count is null exactly
    when the total population or the percentage is null, and the
    population per household is null exactly when the population or the
    households are null or both are zero. *)
Theorem derived_population_null_iff (r : Census.merged_row) :
  Census.finite (Census.Total_Population r) ->
  Census.finite (Census.ALICE_Percentage r) ->
  Census.finite (Census.Poverty_Percentage r) ->
  Census.finite (Census.Households r) ->
  (isna (Census.ALICE_Population r) = true <->
   isna (Census.Total_Population r) = true \/
   isna (Census.ALICE_Percentage r) = true) /\
  (isna (Census.Poverty_Population r) = true <->
   isna (Census.Total_Population r) = true \/
   isna (Census.Poverty_Percentage r) = true) /\
  (isna (Census.Population_Per_Household r) = true <->
   isna (Census.Total_Population r) = true \/
   isna (Census.Households r) = true \/
   exists population households,
     Census.Total_Population r = Fin population /\
     Census.Households r = Fin households /\
     (population == 0)%Q /\ (households == 0)%Q).
Proof.
  intros Ft Fa Fp Fh.
  unfold Census.ALICE_Population, Census.Poverty_Population,
    Census.Population_Per_Household.
  rewrite !round_isna, !div_100_isna, !mul_isna_finite by assumption.
  rewrite !orb_true_iff. repeat split; try tauto.
  - destruct Ft as [T1 T2], Fh as [H1 H2].
    destruct (Census.Total_Population r) as [| | | t];
      destruct (Census.Households r) as [| | | h];
      simpl; auto; try contradiction.
    destruct (is_zero h) eqn:Eh.
    + destruct (is_zero t) eqn:Et.
      * intros _. do 2 right. exists t, h.
        apply Qeq_bool_iff in Eh, Et. auto.
      * destruct (nonneg t); discriminate.
    + discriminate.
  - destruct Ft as [T1 T2], Fh as [H1 H2].
    intros [H | [H | (t & h & Et & Eh & Zt & Zh)]].
    + destruct (Census.Total_Population r); try discriminate. reflexivity.
    + destruct (Census.Total_Population r), (Census.Households r);
        try discriminate; try contradiction; reflexivity.
    + rewrite Et, Eh. simpl.
      apply Qeq_bool_iff in Zt, Zh. unfold is_zero. rewrite Zt, Zh.
      reflexivity.
Qed.

Lemma derived_population_null_iff_witness :
  isna (Census.ALICE_Population (Spec.census_row NaN (of_Z 1) (of_Z 1)))
    = true <->
  isna (Census.Total_Population (Spec.census_row NaN (of_Z 1) (of_Z 1)))
    = true \/
  isna (Census.ALICE_Percentage (Spec.census_row NaN (of_Z 1) (of_Z 1)))
    = true.
Proof.
  apply (derived_population_null_iff (Spec.census_row NaN (of_Z 1) (of_Z 1)));
    split; discriminate.
Defined.

Section PopulationBound.

Local Open Scope Q_scope.


End PopulationBound.



(** ** What the mock generator does not draw *)

Section MockFields.

Ltac run_draws :=
  repeat match goal with
         | H : context [?normal ?l ?d ?t] |- _ =>
             match type of (normal l d t) with
             | (Q * _)%type => destruct (normal l d t) as [? ?]; simpl in H
             end
         | H : context [if is_zero ?x then _ else _] |- _ =>
             destruct (is_zero x); simpl in H
         | H : context [inf ?b] |- _ => destruct b; simpl in H
         | H : None = Some _ |- _ => discriminate H
         end.

Lemma bind_Some {rng A B : Type} (m : Census.Gen rng A)
    (k : A -> Census.Gen rng B) (s t : rng) (b : B) :
  Census.bind rng m k s = Some (b, t) ->
  exists a s', m s = Some (a, s') /\ k a s' = Some (b, t).
Proof.
  unfold Census.bind. destruct (m s) as [[a s'] |]; [eauto | discriminate].
Qed.

(** The fields of a record that do not come from a draw, read off a run
    that returned. *)
Lemma mock_county_undrawn (rng : Type) (normal : Q -> Q -> rng -> Q * rng)
    (fips : string) (row : Census.alice_row) (s t : rng)
    (r : Census.mock_row) :
  Census.mock_county rng normal fips row s = Some (r, t) ->
  Spec.undrawn r = Spec.undrawn_of fips row /\
  (F64.equiv (Census.Minority_Population_Rate r) (of_Z 20) \/
   F64.equiv (Census.Minority_Population_Rate r) (of_Z 30) \/
   F64.equiv (Census.Minority_Population_Rate r) (of_Z 36)).
Proof.
  unfold Census.mock_county, Census.bind, Census.draw, Census.py_int,
    Census.ret, Census.c, Spec.undrawn_of.
  intros H.
  destruct (Census.alice_Households row) as [| | | h]; simpl in H;
    run_draws.
  - injection H as <- _. split; [reflexivity |]. vm_compute. tauto.
  - unfold Census.ltb in *. simpl.
    destruct (Qle_bool 5000 h), (Qle_bool 25000 h); simpl in *;
      injection H as <- _; (split; [reflexivity |]); vm_compute; tauto.
Qed.

Lemma mock_rows_undrawn (rng : Type) (normal : Q -> Q -> rng -> Q * rng)
    (alice_df : list Census.alice_row) : forall (s t : rng) records,
  Census.mock_rows rng normal alice_df s = Some (records, t) ->
  map Spec.undrawn records
  = map (fun row => Spec.undrawn_of (Spec.mock_code row) row)
        (List.filter
           (fun row => Nat.eqb (String.length (Spec.mock_code row)) 5)
           alice_df)
  /\
  Forall (fun r =>
            F64.equiv (Census.Minority_Population_Rate r) (of_Z 20) \/
            F64.equiv (Census.Minority_Population_Rate r) (of_Z 30) \/
            F64.equiv (Census.Minority_Population_Rate r) (of_Z 36))
         records.
Proof.
  induction alice_df as [| row rest IH]; intros s t records H.
  - injection H as <- _. split; constructor.
  - cbn [Census.mock_rows] in H. fold (Spec.mock_code row) in H.
    cbn [List.filter].
    destruct (Nat.eqb (String.length (Spec.mock_code row)) 5); simpl in H.
    + apply bind_Some in H as (r & s1 & Hr & H).
      apply bind_Some in H as (rs & s2 & Hrs & H).
      injection H as <- _.
      destruct (mock_county_undrawn _ _ _ _ _ _ _ Hr) as [U V].
      destruct (IH _ _ _ Hrs) as [Us Vs].
      simpl. rewrite U, Us. split; [reflexivity | constructor; assumption].
    + exact (IH _ _ _ H).
Qed.

End MockFields.

(** X19. When the mock generation returns, it has produced one record per
    row of the ALICE table whose cleaned code has five characters, in the
    order of the table, each under that code; the other rows are skipped. *)
Theorem mock_records_follow_valid_rows (rng : Type) (seed : Z -> rng)
    (normal : Q -> Q -> rng -> Q * rng)
    (alice_df : list Census.alice_row) (global after : rng)
    (records : list Census.mock_row) :
  Census._create_mock_demographics rng seed normal alice_df global
    = Some (records, after) ->
  map Census.FIPS records
    = map Spec.mock_code
        (List.filter
           (fun row => Nat.eqb (String.length (Spec.mock_code row)) 5)
           alice_df) /\
  Forall (fun r => String.length (Census.FIPS r) = 5) records.
Proof.
  unfold Census._create_mock_demographics, Census.bind,
    Census.np_random_seed.
  intros H. apply mock_rows_undrawn in H as [U _].
  assert (E : map Census.FIPS records
              = map Spec.mock_code
                  (List.filter
                     (fun row =>
                        Nat.eqb (String.length (Spec.mock_code row)) 5)
                     alice_df)).
  { replace Census.FIPS with (fun r => fst (fst (Spec.undrawn r)))
      by reflexivity.
    rewrite <- (map_map Spec.undrawn (fun u => fst (fst u))), U, map_map.
    reflexivity. }
  split; [exact E |].
  apply List.Forall_forall. intros r Hr.
  apply (in_map Census.FIPS) in Hr. rewrite E in Hr.
  apply in_map_iff in Hr as (row & <- & Hrow).
  apply filter_In in Hrow as [_ L]. apply Nat.eqb_eq, L.
Qed.

Lemma mock_records_follow_valid_rows_witness :
  map Census.FIPS
    (fst (default ([], 0%nat)
            (Census._create_mock_demographics nat Spec.counter_seed
               Spec.counter_normal Spec.one_county 0%nat)))
  = map Spec.mock_code
      (List.filter
         (fun row => Nat.eqb (String.length (Spec.mock_code row)) 5)
         Spec.one_county).
Proof.
  destruct (Census._create_mock_demographics nat Spec.counter_seed
              Spec.counter_normal Spec.one_county 0%nat)
    as [[records after] |] eqn:E; [| exfalso; vm_compute in E; discriminate].
  exact (proj1 (mock_records_follow_valid_rows nat Spec.counter_seed
                  Spec.counter_normal Spec.one_county 0%nat after records E)).
Defined.

(** X20. Some fields of a mock record do not depend on the generator at
    all: for two generators of any kind on which the mock generation
    returns, the records agree on the code, the housing units and the
    minority rate.  The minority rate is fixed by the household bracket of
    the county, one of 20, 30 and 36, whatever is drawn for the white
    population. *)
Theorem mock_fields_not_drawn (rng1 rng2 : Type)
    (seed1 : Z -> rng1) (seed2 : Z -> rng2)
    (normal1 : Q -> Q -> rng1 -> Q * rng1)
    (normal2 : Q -> Q -> rng2 -> Q * rng2)
    (alice_df : list Census.alice_row)
    (global1 after1 : rng1) (global2 after2 : rng2)
    (records1 records2 : list Census.mock_row) :
  Census._create_mock_demographics rng1 seed1 normal1 alice_df global1
    = Some (records1, after1) ->
  Census._create_mock_demographics rng2 seed2 normal2 alice_df global2
    = Some (records2, after2) ->
  map Spec.undrawn records1 = map Spec.undrawn records2 /\
  Forall (fun r =>
            F64.equiv (Census.Minority_Population_Rate r) (of_Z 20) \/
            F64.equiv (Census.Minority_Population_Rate r) (of_Z 30) \/
            F64.equiv (Census.Minority_Population_Rate r) (of_Z 36))
         records1.
Proof.
  unfold Census._create_mock_demographics, Census.bind,
    Census.np_random_seed.
  intros H1 H2.
  apply mock_rows_undrawn in H1 as [U1 V1].
  apply mock_rows_undrawn in H2 as [U2 _].
  split; [congruence | exact V1].
Qed.

Lemma mock_fields_not_drawn_witness :
  map Spec.undrawn
    (fst (default ([], 0%nat)
            (Census._create_mock_demographics nat Spec.counter_seed
               Spec.counter_normal Spec.one_county 0%nat)))
  = map Spec.undrawn
      (fst (default ([], tt)
              (Census._create_mock_demographics unit (fun _ => tt)
                 Spec.mean_normal Spec.one_county tt))).
Proof.
  destruct (Census._create_mock_demographics nat Spec.counter_seed
              Spec.counter_normal Spec.one_county 0%nat)
    as [[records1 after1] |] eqn:E1;
    [| exfalso; vm_compute in E1; discriminate].
  destruct (Census._create_mock_demographics unit (fun _ => tt)
              Spec.mean_normal Spec.one_county tt)
    as [[records2 after2] |] eqn:E2;
    [| exfalso; vm_compute in E2; discriminate].
  exact (proj1 (mock_fields_not_drawn nat unit Spec.counter_seed
                  (fun _ => tt) Spec.counter_normal Spec.mean_normal
                  Spec.one_county 0%nat after1 tt after2 records1 records2
                  E1 E2)).
Defined.

(** ** The consolidation summary *)

Section Summary.





End Summary.

